(** * WindowManager: the window and OpenGL context layer of the first
      OpenGL tutorial

    A shallow embedding of [Source/WindowManager.cpp].  The file is a thin
    wrapper around two external libraries (GLFW for windows and input,
    GLEW for loading the OpenGL entry points), so the embedding has two
    layers:

    - a small executable model of the libraries: the state
      GLFW keeps between calls, and the answers that come from the machine
      the program runs on (does the platform initialise, is a window
      granted, which input events arrive), read from a [Platform] oracle;
    - the methods of [WindowManager] and [main], written call by call as
      in the source, in a state monad that also logs every library call
      together with the value it returned. *)

From Stdlib Require Import ZArith Ascii String List.
From stdpp Require Import base option gmap strings list fin_maps.

Local Open Scope Z_scope.

(** ** Pointers and constants of the library headers *)

(** A pointer is an address; address [0] is the null pointer. *)
Abbreviation pointer := N (only parsing).
Definition nullptr : pointer := 0%N.

(** Values of the macros the source uses, as [glfw3.h] (GLFW 3) and
    [glew.h] define them. *)
Definition GLFW_TRUE : Z := 1.
Definition GLFW_FALSE : Z := 0.
Definition GLFW_RELEASE : Z := 0.
Definition GLFW_PRESS : Z := 1.
Definition GLFW_REPEAT : Z := 2.
Definition GLFW_STICK : Z := 3.
Definition GLFW_KEY_ESCAPE : Z := 256.
Definition GLFW_SAMPLES : Z := 0x0002100D.
Definition GLFW_CONTEXT_VERSION_MAJOR : Z := 0x00022002.
Definition GLFW_CONTEXT_VERSION_MINOR : Z := 0x00022003.
Definition GLFW_OPENGL_PROFILE : Z := 0x00022008.
Definition GLFW_OPENGL_CORE_PROFILE : Z := 0x00032001.
Definition GLFW_STICKY_KEYS : Z := 0x00033002.
Definition GL_TRUE : Z := 1.
Definition GLEW_OK : Z := 0.

(** The line feed that ends each diagnostic message. *)
Definition LF : string := String (ascii_of_nat 10) EmptyString.

(** A C string as a library reads it from a character pointer: the
    characters up to the first NUL. *)
Fixpoint read_c_string (buffer : string) : string :=
  match buffer with
  | EmptyString => EmptyString
  | String c rest =>
      if Ascii.eqb c Ascii.zero then EmptyString
      else String c (read_c_string rest)
  end.

(** ** State *)

(** What GLFW keeps for one window together with its OpenGL context. *)
Record window := mkWindow {
  win_width : Z;
  win_height : Z;
  win_title : string;
  win_monitor : pointer;          (* null: windowed mode *)
  win_attribs : gmap Z Z;         (* the hints in force when it was created *)
  win_modes : gmap Z Z;           (* input modes, e.g. GLFW_STICKY_KEYS *)
  win_keys : gmap Z Z;            (* last reported state of each key *)
  win_should_close : Z;           (* the close flag *)
  win_frames : nat                (* buffer swaps so far *)
}.

(** The state of an initialised GLFW library.  It exists between a
    successful [glfwInit] and [glfwTerminate]. *)
Record Library := mkLibrary {
  lib_hints : gmap Z Z;           (* hints for the next window *)
  lib_windows : gmap N window;    (* live windows by handle *)
  lib_next : positive;            (* next handle to hand out *)
  lib_current : pointer           (* window whose context is current *)
}.

(** The class of the source; [Window] is its only data member. *)
Record WindowManager := mkWindowManager {
  Window : pointer
}.

Record State := mkState {
  this : WindowManager;           (* the WindowManager object *)
  glfw : option Library;          (* None: GLFW is not initialised *)
  glewExperimental : Z;           (* GLEW's global flag *)
  glew_loaded : bool;             (* did glewInit load the entry points *)
  clock : nat                     (* number of library calls so far *)
}.

(** An input event as the operating system delivers it to a window. *)
Inductive input_event :=
| KeyEvent (h : pointer) (key action : Z)
| CloseEvent (h : pointer).

(** The machine the program runs on.  Each answer is indexed by the
    [clock] at which the library asks for it, so a platform may answer
    differently from one call to the next. *)
Record Platform := mkPlatform {
  platform_init : nat -> bool;              (* can GLFW initialise *)
  platform_monitor : nat -> pointer;        (* primary monitor, null if none *)
  platform_window : nat -> bool;            (* is a window and context granted *)
  platform_loader : nat -> Z;               (* status glewInit reports *)
  platform_events : nat -> list input_event (* input that has arrived *)
}.

(** A call the program makes to the outside, with the value it got back
    where there is one. *)
Inductive Call :=
| glfwInit_call (ret : Z)
| glfwWindowHint_call (hint value : Z)
| glfwGetPrimaryMonitor_call (ret : pointer)
| glfwCreateWindow_call (width height : Z) (title : string)
                        (monitor share : pointer) (ret : pointer)
| glfwMakeContextCurrent_call (h : pointer)
| glfwSetInputMode_call (h : pointer) (mode value : Z)
| glewInit_call (ret : Z)
| glfwSwapBuffers_call (h : pointer)
| glfwGetKey_call (h : pointer) (key : Z) (ret : Z)
| glfwWindowShouldClose_call (h : pointer) (ret : Z)
| glfwPollEvents_call
| glfwTerminate_call
| fprintf_stderr_call (msg : string).

(** ** The monad of the embedding: state passing plus the log of calls *)

Definition Prog (A : Type) : Type := State -> A * State * list Call.

Definition ret {A} (a : A) : Prog A := fun s => (a, s, []).

Definition bind {A B} (m : Prog A) (k : A -> Prog B) : Prog B :=
  fun s =>
    let '(a, s1, c1) := m s in
    let '(b, s2, c2) := k a s1 in
    (b, s2, c1 ++ c2).

Declare Scope prog_scope.
Delimit Scope prog_scope with prog.
Notation "'let*' x ':=' m 'in' k" := (bind m (fun x => k))
  (at level 10, x name, m at level 100, k at level 200) : prog_scope.

(** Projections of a run. *)
Definition result {A} (r : A * State * list Call) : A := fst (fst r).
Definition final {A} (r : A * State * list Call) : State := snd (fst r).
Definition calls {A} (r : A * State * list Call) : list Call := snd r.

(** Field updates. *)
Definition set_this (o : WindowManager) (s : State) : State :=
  mkState o (glfw s) (glewExperimental s) (glew_loaded s) (clock s).
Definition set_glfw (l : option Library) (s : State) : State :=
  mkState (this s) l (glewExperimental s) (glew_loaded s) (clock s).
Definition set_flag (v : Z) (s : State) : State :=
  mkState (this s) (glfw s) v (glew_loaded s) (clock s).
Definition set_loaded (b : bool) (s : State) : State :=
  mkState (this s) (glfw s) (glewExperimental s) b (clock s).
Definition tick (s : State) : State :=
  mkState (this s) (glfw s) (glewExperimental s) (glew_loaded s) (S (clock s)).

Definition set_hints (h : gmap Z Z) (l : Library) : Library :=
  mkLibrary h (lib_windows l) (lib_next l) (lib_current l).
Definition set_windows (ws : gmap N window) (l : Library) : Library :=
  mkLibrary (lib_hints l) ws (lib_next l) (lib_current l).
Definition set_current (h : pointer) (l : Library) : Library :=
  mkLibrary (lib_hints l) (lib_windows l) (lib_next l) h.

(** One call to the outside: run the library's transition [f], count the
    call, and log it with the value returned. *)
Definition extern {A} (f : State -> A * State) (ev : A -> Call) : Prog A :=
  fun s => let '(a, s1) := f s in (a, tick s1, [ev a]).

(** Reading and writing the data member [Window] of [this]. *)
Definition get_Window : Prog pointer := fun s => (Window (this s), s, []).
Definition put_Window (p : pointer) : Prog unit :=
  fun s => (tt, set_this (mkWindowManager p) s, []).

Local Open Scope prog_scope.

(** ** The libraries

    The behaviour of GLFW and GLEW, after their documentation.  The model
    is total: a call that names a window which is not live, or that is
    made while GLFW is not initialised, changes nothing and returns the
    value the documentation gives for the failed call. *)

Section Program.

Variable env : Platform.

(** The state of a freshly initialised library: default hints, no window. *)
Definition fresh_library : Library := mkLibrary ∅ ∅ 1%positive nullptr.

(** [glfwInit]: returns at once with GLFW_TRUE when already initialised;
    otherwise the platform decides. *)
Definition glfwInit : Prog Z :=
  extern (fun s =>
    match glfw s with
    | Some _ => (GLFW_TRUE, s)
    | None =>
        if platform_init env (clock s)
        then (GLFW_TRUE, set_glfw (Some fresh_library) s)
        else (GLFW_FALSE, s)
    end) glfwInit_call.

(** [glfwTerminate]: destroys every remaining window and context and
    frees the library's state; does nothing when not initialised. *)
Definition glfwTerminate : Prog unit :=
  extern (fun s => (tt, set_glfw None s)) (fun _ => glfwTerminate_call).

(** [glfwWindowHint]: records the hint for the next window. *)
Definition glfwWindowHint (hint value : Z) : Prog unit :=
  extern (fun s =>
    (tt, set_glfw ((fun l => set_hints (<[hint := value]> (lib_hints l)) l)
                   <$> glfw s) s))
    (fun _ => glfwWindowHint_call hint value).

(** [glfwGetPrimaryMonitor]: null when not initialised or without monitor. *)
Definition glfwGetPrimaryMonitor : Prog pointer :=
  extern (fun s =>
    (match glfw s with
     | Some _ => platform_monitor env (clock s)
     | None => nullptr
     end, s)) glfwGetPrimaryMonitor_call.

(** [glfwCreateWindow]: a window and its context, with the attributes the
    current hints ask for.  [title] stands for the characters the pointer
    passed points to; the library reads them as a C string, so the window
    is titled by what comes before the first NUL.  Null when the library
    is not initialised, the size is not positive, or the platform cannot
    provide what is asked. *)
Definition glfwCreateWindow (width height : Z) (title : string)
    (monitor share : pointer) : Prog pointer :=
  extern (fun s =>
    match glfw s with
    | Some l =>
        if (0 <? width) && (0 <? height) && platform_window env (clock s)
        then
          let h := Npos (lib_next l) in
          let w := mkWindow width height (read_c_string title) monitor
                            (lib_hints l) ∅ ∅ 0 0 in
          (h, set_glfw (Some (mkLibrary (lib_hints l)
                                        (<[h := w]> (lib_windows l))
                                        (Pos.succ (lib_next l))
                                        (lib_current l))) s)
        else (nullptr, s)
    | None => (nullptr, s)
    end) (glfwCreateWindow_call width height title monitor share).

(** Is [h] the handle of a live window? *)
Definition live (h : pointer) (s : State) : bool :=
  match glfw s with
  | Some l => bool_decide (is_Some (lib_windows l !! h))
  | None => false
  end.

(** Apply [f] to the live window [h], if there is one. *)
Definition on_window (f : window -> window) (h : pointer) (s : State) : State :=
  set_glfw ((fun l => set_windows (alter f h (lib_windows l)) l) <$> glfw s) s.

(** [glfwMakeContextCurrent]: the context of a live window becomes
    current; the null pointer detaches the current one. *)
Definition glfwMakeContextCurrent (h : pointer) : Prog unit :=
  extern (fun s =>
    (tt, if (h =? nullptr)%N || live h s
         then set_glfw (set_current h <$> glfw s) s
         else s))
    (fun _ => glfwMakeContextCurrent_call h).

(** [glfwSetInputMode]. *)
Definition set_mode (mode value : Z) (w : window) : window :=
  mkWindow (win_width w) (win_height w) (win_title w) (win_monitor w)
           (win_attribs w) (<[mode := value]> (win_modes w)) (win_keys w)
           (win_should_close w) (win_frames w).

Definition glfwSetInputMode (h : pointer) (mode value : Z) : Prog unit :=
  extern (fun s => (tt, on_window (set_mode mode value) h s))
    (fun _ => glfwSetInputMode_call h mode value).

(** [glfwSwapBuffers]: presents one more frame of the window. *)
Definition swap (w : window) : window :=
  mkWindow (win_width w) (win_height w) (win_title w) (win_monitor w)
           (win_attribs w) (win_modes w) (win_keys w)
           (win_should_close w) (S (win_frames w)).

Definition glfwSwapBuffers (h : pointer) : Prog unit :=
  extern (fun s => (tt, on_window swap h s))
    (fun _ => glfwSwapBuffers_call h).

(** [glfwGetKey]: the last state reported for the key.  A key released
    while sticky keys are on reads as pressed once, and is released by
    that read. *)
Definition set_key (key v : Z) (w : window) : window :=
  mkWindow (win_width w) (win_height w) (win_title w) (win_monitor w)
           (win_attribs w) (win_modes w) (<[key := v]> (win_keys w))
           (win_should_close w) (win_frames w).

Definition key_state (key : Z) (w : window) : Z :=
  default GLFW_RELEASE (win_keys w !! key).

Definition glfwGetKey (h : pointer) (key : Z) : Prog Z :=
  extern (fun s =>
    match glfw s with
    | Some l =>
        match lib_windows l !! h with
        | Some w =>
            if key_state key w =? GLFW_STICK
            then (GLFW_PRESS, on_window (set_key key GLFW_RELEASE) h s)
            else (key_state key w, s)
        | None => (GLFW_RELEASE, s)
        end
    | None => (GLFW_RELEASE, s)
    end) (glfwGetKey_call h key).

(** [glfwWindowShouldClose]: the close flag of the window. *)
Definition glfwWindowShouldClose (h : pointer) : Prog Z :=
  extern (fun s =>
    (match glfw s with
     | Some l => default 0 (win_should_close <$> lib_windows l !! h)
     | None => 0
     end, s)) (glfwWindowShouldClose_call h).

(** [glfwPollEvents]: hands the input that has arrived to the windows. *)
Definition sticky (w : window) : bool :=
  negb (default 0 (win_modes w !! GLFW_STICKY_KEYS) =? 0).

Definition input_key (key action : Z) (w : window) : window :=
  if (action =? GLFW_RELEASE) && (key_state key w =? GLFW_RELEASE) then w
  else if (action =? GLFW_RELEASE) && sticky w then set_key key GLFW_STICK w
  else if action =? GLFW_REPEAT then set_key key GLFW_PRESS w
  else set_key key action w.

Definition request_close (w : window) : window :=
  mkWindow (win_width w) (win_height w) (win_title w) (win_monitor w)
           (win_attribs w) (win_modes w) (win_keys w) 1 (win_frames w).

Definition deliver (s : State) (e : input_event) : State :=
  match e with
  | KeyEvent h key action => on_window (input_key key action) h s
  | CloseEvent h => on_window request_close h s
  end.

Definition glfwPollEvents : Prog unit :=
  extern (fun s => (tt, fold_left deliver (platform_events env (clock s)) s))
    (fun _ => glfwPollEvents_call).

(** [glewInit]: the platform reports whether the OpenGL entry points
    could be loaded. *)
Definition glewInit : Prog Z :=
  extern (fun s =>
    let r := platform_loader env (clock s) in
    (r, if r =? GLEW_OK then set_loaded true s else s)) glewInit_call.

(** [fprintf(stderr, msg)]. *)
Definition fprintf_stderr (msg : string) : Prog unit :=
  extern (fun s => (tt, s)) (fun _ => fprintf_stderr_call msg).

(** Assignment to the global [glewExperimental]. *)
Definition put_glewExperimental (v : Z) : Prog unit :=
  fun s => (tt, set_flag v s, []).

(** ** The methods of WindowManager *)

(** [void WindowManager::Destroy()] *)
Definition Destroy : Prog unit :=
  glfwTerminate.

(** [int WindowManager::Initialize(int width, int height,
                                   std::string strTitle, bool bFullScreen)].
    [strTitle.c_str()] is a pointer to the characters of [strTitle]; the
    call is made, and logged, with the characters it points to, and
    [glfwCreateWindow] reads them up to the first NUL. *)
Definition Initialize (width height : Z) (strTitle : string)
    (bFullScreen : bool) : Prog Z :=
  let* ok := glfwInit in
  if ok =? 0 then
    let* _ := fprintf_stderr ("Failed to initialize GLFW" ++ LF) in
    ret (-1)
  else
    let* _ := glfwWindowHint GLFW_SAMPLES 4 in
    let* _ := glfwWindowHint GLFW_CONTEXT_VERSION_MAJOR 4 in
    let* _ := glfwWindowHint GLFW_CONTEXT_VERSION_MINOR 4 in
    let* _ := glfwWindowHint GLFW_OPENGL_PROFILE GLFW_OPENGL_CORE_PROFILE in
    let* _ :=
      (if bFullScreen then
         let* monitor := glfwGetPrimaryMonitor in
         let* w := glfwCreateWindow width height strTitle monitor nullptr in
         put_Window w
       else
         let* w := glfwCreateWindow width height strTitle nullptr nullptr in
         put_Window w) in
    let* w := get_Window in
    if (w =? nullptr)%N then
      let* _ := fprintf_stderr
        ("Failed to create a GLFW window, you might need to download the latest drivers or change the OpenGL version to 3" ++ LF) in
      let* _ := Destroy in
      ret (-1)
    else
      let* w := get_Window in
      let* _ := glfwMakeContextCurrent w in
      let* w := get_Window in
      let* _ := glfwSetInputMode w GLFW_STICKY_KEYS GL_TRUE in
      let* _ := put_glewExperimental GL_TRUE in
      let* err := glewInit in
      if negb (GLEW_OK =? err) then
        let* _ := fprintf_stderr ("Failed to initialize glew" ++ LF) in
        ret (-1)
      else
        ret 0.

(** [void WindowManager::SwapBuffers()] *)
Definition SwapBuffers : Prog unit :=
  let* w := get_Window in
  glfwSwapBuffers w.

(** [bool WindowManager::ProcessInput(bool continueGame)].  The operator
    [||] of the source does not evaluate its right operand when the left
    one holds. *)
Definition ProcessInput (continueGame : bool) : Prog bool :=
  let* w := get_Window in
  let* key := glfwGetKey w GLFW_KEY_ESCAPE in
  let* quit :=
    (if key =? GLFW_PRESS then ret true
     else
       let* w := get_Window in
       let* close := glfwWindowShouldClose w in
       ret (negb (close =? 0))) in
  if (quit : bool) then ret false
  else
    let* _ := glfwPollEvents in
    ret continueGame.

(** ** Sequences of method calls on the one WindowManager object *)

Inductive Op :=
| OpInitialize (width height : Z) (strTitle : string) (bFullScreen : bool)
| OpSwapBuffers
| OpProcessInput (continueGame : bool)
| OpDestroy.

Definition run_op (o : Op) : Prog unit :=
  match o with
  | OpInitialize width height strTitle bFullScreen =>
      let* _ := Initialize width height strTitle bFullScreen in ret tt
  | OpSwapBuffers => SwapBuffers
  | OpProcessInput continueGame =>
      let* _ := ProcessInput continueGame in ret tt
  | OpDestroy => Destroy
  end.

Fixpoint run_ops (l : list Op) : Prog unit :=
  match l with
  | [] => ret tt
  | o :: l' => let* _ := run_op o in run_ops l'
  end.

(** ** The entry point

    [GLApplication] and its [GLMain] are defined in Main.cpp, which is
    not part of this file: the class, its constructor, its destructor and
    [GLMain] are parameters. *)

Section Main.

Variable GLApplication : Type.
Variable GLApplication_ctor : Prog GLApplication.
Variable GLApplication_dtor : GLApplication -> Prog unit.
Variable GLMain : GLApplication -> Prog Z.

(** [int main()] *)
Definition main : Prog Z :=
  let* application := GLApplication_ctor in
  let* code := GLMain application in
  let* _ := GLApplication_dtor application in
  ret code.

End Main.

End Program.

(** ** What a run of Initialize looks like *)

(** The diagnostics of [Initialize]. *)
Definition msg_glfw : string := "Failed to initialize GLFW" ++ LF.
Definition msg_window : string :=
  "Failed to create a GLFW window, you might need to download the latest drivers or change the OpenGL version to 3" ++ LF.
Definition msg_glew : string := "Failed to initialize glew" ++ LF.

(** The four hint calls, in the order of the source. *)
Definition hint_calls : list Call :=
  [ glfwWindowHint_call GLFW_SAMPLES 4;
    glfwWindowHint_call GLFW_CONTEXT_VERSION_MAJOR 4;
    glfwWindowHint_call GLFW_CONTEXT_VERSION_MINOR 4;
    glfwWindowHint_call GLFW_OPENGL_PROFILE GLFW_OPENGL_CORE_PROFILE ].

(** The calls that create the window, returning handle [h]. *)
Definition create_calls (width height : Z) (strTitle : string)
    (bFullScreen : bool) (monitor h : pointer) : list Call :=
  if bFullScreen
  then [ glfwGetPrimaryMonitor_call monitor;
         glfwCreateWindow_call width height strTitle monitor nullptr h ]
  else [ glfwCreateWindow_call width height strTitle nullptr nullptr h ].

(** The calls that follow a successful creation, with the loader's status. *)
Definition setup_calls (h : pointer) (err : Z) : list Call :=
  [ glfwMakeContextCurrent_call h;
    glfwSetInputMode_call h GLFW_STICKY_KEYS GL_TRUE;
    glewInit_call err ].

(** The window named by [Window] is live, its context is current, and it
    was created with the attributes of the source. *)
Definition window_ready (s : State) : Prop :=
  exists l w,
    glfw s = Some l /\
    lib_windows l !! Window (this s) = Some w /\
    lib_current l = Window (this s) /\
    win_attribs w !! GLFW_SAMPLES = Some 4 /\
    win_attribs w !! GLFW_CONTEXT_VERSION_MAJOR = Some 4 /\
    win_attribs w !! GLFW_CONTEXT_VERSION_MINOR = Some 4 /\
    win_attribs w !! GLFW_OPENGL_PROFILE = Some GLFW_OPENGL_CORE_PROFILE.

(** The stderr output among a list of calls. *)
Definition stderr_of (l : list Call) : list string :=
  omap (fun c => match c with fprintf_stderr_call m => Some m | _ => None end) l.

(** The runs of [Initialize] from state [s]: the value returned, the
    state reached and the calls made, one constructor per [return]. *)
Inductive InitializeRun (width height : Z) (strTitle : string)
    (bFullScreen : bool) (s : State) : Z * State * list Call -> Prop :=
| run_no_glfw s' :
    glfw s = None ->
    glfw s' = None ->
    this s' = this s ->
    InitializeRun width height strTitle bFullScreen s
      (-1, s', [glfwInit_call GLFW_FALSE; fprintf_stderr_call msg_glfw])
| run_no_window s' monitor :
    glfw s' = None ->
    Window (this s') = nullptr ->
    InitializeRun width height strTitle bFullScreen s
      (-1, s',
       glfwInit_call GLFW_TRUE :: hint_calls ++
       create_calls width height strTitle bFullScreen monitor nullptr ++
       [fprintf_stderr_call msg_window; glfwTerminate_call])
| run_no_glew s' monitor h err :
    h <> nullptr ->
    Window (this s') = h ->
    window_ready s' ->
    err <> GLEW_OK ->
    InitializeRun width height strTitle bFullScreen s
      (-1, s',
       glfwInit_call GLFW_TRUE :: hint_calls ++
       create_calls width height strTitle bFullScreen monitor h ++
       setup_calls h err ++ [fprintf_stderr_call msg_glew])
| run_ok s' monitor h :
    h <> nullptr ->
    Window (this s') = h ->
    window_ready s' ->
    InitializeRun width height strTitle bFullScreen s
      (0, s',
       glfwInit_call GLFW_TRUE :: hint_calls ++
       create_calls width height strTitle bFullScreen monitor h ++
       setup_calls h GLEW_OK).

(** ** Frames: what a program leaves as it is

    [keeps R m] says every run of [m] relates the state it starts in to
    the state it ends in by [R]. *)

Definition keeps (R : relation State) {A} (m : Prog A) : Prop :=
  forall s, R s (final (m s)).

(** The frame of the per-frame methods: the object and the set of live
    windows stay as they are. *)
Definition same_windows (s s' : State) : Prop :=
  this s' = this s /\ forall h, live h s' = live h s.

(** The frame of [Destroy]: the object stays as it is. *)
Definition same_object (s s' : State) : Prop :=
  this s' = this s.

(** ** Runs of ProcessInput *)

(** The runs of [ProcessInput] from state [s], one constructor per
    [return]: Escape reads as pressed; the close flag is set; neither. *)
Inductive ProcessInputRun (continueGame : bool) (s : State) :
    bool * State * list Call -> Prop :=
| run_escape s' :
    ProcessInputRun continueGame s
      (false, s',
       [glfwGetKey_call (Window (this s)) GLFW_KEY_ESCAPE GLFW_PRESS])
| run_close s' key close :
    key <> GLFW_PRESS ->
    close <> 0 ->
    ProcessInputRun continueGame s
      (false, s',
       [glfwGetKey_call (Window (this s)) GLFW_KEY_ESCAPE key;
        glfwWindowShouldClose_call (Window (this s)) close])
| run_continue s' key :
    key <> GLFW_PRESS ->
    ProcessInputRun continueGame s
      (continueGame, s',
       [glfwGetKey_call (Window (this s)) GLFW_KEY_ESCAPE key;
        glfwWindowShouldClose_call (Window (this s)) 0;
        glfwPollEvents_call]).

(** ** Validity of the handle *)

(** The handle in [Window] is valid: it is not null and names a live
    window of the library. *)
Definition handle_valid (s : State) : Prop :=
  Window (this s) <> nullptr /\ live (Window (this s)) s = true.

(** Kinds of method calls. *)
Definition is_Destroy (o : Op) : bool :=
  match o with OpDestroy => true | _ => false end.

Definition is_Initialize (o : Op) : bool :=
  match o with OpInitialize _ _ _ _ => true | _ => false end.

Definition per_frame (o : Op) : bool :=
  match o with OpSwapBuffers | OpProcessInput _ => true | _ => false end.

(** ** Sample platforms and states *)

Module Samples.

(** A machine on which nothing fails and nobody types. *)
Definition good : Platform :=
  mkPlatform (fun _ => true) (fun _ => 7%N) (fun _ => true)
             (fun _ => GLEW_OK) (fun _ => []).

(** A machine on which GLFW cannot initialise. *)
Definition no_glfw : Platform :=
  mkPlatform (fun _ => false) (fun _ => 7%N) (fun _ => true)
             (fun _ => GLEW_OK) (fun _ => []).

(** A machine that grants no OpenGL 4.4 window. *)
Definition no_window : Platform :=
  mkPlatform (fun _ => true) (fun _ => 7%N) (fun _ => false)
             (fun _ => GLEW_OK) (fun _ => []).

(** A machine on which GLEW finds no usable OpenGL. *)
Definition no_glew : Platform :=
  mkPlatform (fun _ => true) (fun _ => 7%N) (fun _ => true)
             (fun _ => 1) (fun _ => []).

(** A machine that grants one window and refuses any later one. *)
Definition one_window : Platform :=
  mkPlatform (fun _ => true) (fun _ => 7%N) (fun t => Nat.ltb t 9)
             (fun _ => GLEW_OK) (fun _ => []).

(** A machine whose user holds Escape down in the first window. *)
Definition typist : Platform :=
  mkPlatform (fun _ => true) (fun _ => 7%N) (fun _ => true)
             (fun _ => GLEW_OK)
             (fun _ => [KeyEvent 1%N GLFW_KEY_ESCAPE GLFW_PRESS]).

(** The state at program start; [Window] holds [v]. *)
Definition start (v : pointer) : State :=
  mkState (mkWindowManager v) None 0 false 0.

(** The state after [Initialize] on a good machine. *)
Definition running : State :=
  final (Initialize good 800 600 "First OpenGL Program" false (start 0%N)).

(** The state after [Initialize] and one frame on the typist's machine:
    the poll of that frame has seen Escape go down. *)
Definition escape_held : State :=
  final (bind (Initialize typist 800 600 "First OpenGL Program" false)
              (fun _ => ProcessInput typist true) (start 0%N)).

(** A few frames of the game loop. *)
Definition frames : list Op :=
  [OpProcessInput true; OpSwapBuffers; OpProcessInput true; OpSwapBuffers].

End Samples.

(** ** The reading of the handle invariant over all methods but Destroy *)

(** Some [glfwCreateWindow] among the calls returned the null pointer. *)
Definition window_refused (c : list Call) : Prop :=
  exists width height title monitor share,
    In (glfwCreateWindow_call width height title monitor share nullptr) c.

(** After an [Initialize] that returned 0, the method calls [ops], none
    of them [Destroy], leave a handle in [Window] that is not null. *)
Definition valid_until_Destroy (env : Platform) (width height : Z)
    (strTitle : string) (bFullScreen : bool) (s : State) (ops : list Op)
    : Prop :=
  let r := Initialize env width height strTitle bFullScreen s in
  result r = 0 ->
  forallb (fun o => negb (is_Destroy o)) ops = true ->
  Window (this (final (run_ops env ops (final r)))) <> nullptr.

(** ** The reading of ProcessInput with an unconditional poll *)

(** An exit request shows among the calls: Escape read as pressed, or a
    close flag read as set. *)
Definition exit_seen (c : list Call) : Prop :=
  (exists h, In (glfwGetKey_call h GLFW_KEY_ESCAPE GLFW_PRESS) c) \/
  (exists h close, close <> 0 /\ In (glfwWindowShouldClose_call h close) c).

(** Every call polls the events, and returns false on an exit request
    and the flag otherwise. *)
Definition polls_and_checks (env : Platform) (continueGame : bool)
    (s : State) : Prop :=
  let r := ProcessInput env continueGame s in
  In glfwPollEvents_call (calls r) /\
  (exit_seen (calls r) -> result r = false) /\
  (~ exit_seen (calls r) -> result r = continueGame).

(** ** Observations on the state *)

(** The live window with handle [h], if there is one. *)
Definition window_at (h : pointer) (s : State) : option window :=
  match glfw s with
  | Some l => lib_windows l !! h
  | None => None
  end.

(** A key reads as pressed in a window: it is down, or it was released
    after a press that has not been read yet. *)
Definition reads_pressed (key : Z) (w : window) : bool :=
  (key_state key w =? GLFW_PRESS) || (key_state key w =? GLFW_STICK).

(** Escape reads as pressed in the window of [Window]. *)
Definition escape_reads_pressed (s : State) : bool :=
  match window_at (Window (this s)) s with
  | Some w => reads_pressed GLFW_KEY_ESCAPE w
  | None => false
  end.

(** The close flag of the window of [Window] is set. *)
Definition close_flag_set (s : State) : bool :=
  match window_at (Window (this s)) s with
  | Some w => negb (win_should_close w =? 0)
  | None => false
  end.

(** What [ProcessInput] takes for a request to exit. *)
Definition exit_requested (s : State) : bool :=
  escape_reads_pressed s || close_flag_set s.

(** Sticky keys are on in the window of [Window]. *)
Definition sticky_on (s : State) : bool :=
  match window_at (Window (this s)) s with
  | Some w => sticky w
  | None => false
  end.

(** The actions a key event can carry. *)
Definition key_action (a : Z) : bool :=
  (a =? GLFW_RELEASE) || (a =? GLFW_PRESS) || (a =? GLFW_REPEAT).

Definition well_formed (e : input_event) : bool :=
  match e with
  | KeyEvent _ _ a => key_action a
  | CloseEvent _ => true
  end.

(** The events the poll of [ProcessInput] started in [s] hands out: the
    poll is the third library call of the method. *)
Definition polled_events (env : Platform) (s : State) : list input_event :=
  platform_events env (S (S (clock s))).

(** What an event does to the window with handle [h]. *)
Definition deliver_to (h : pointer) (w : window) (e : input_event) : window :=
  match e with
  | KeyEvent k key action => if decide (k = h) then input_key key action w else w
  | CloseEvent k => if decide (k = h) then request_close w else w
  end.

(** The frame of the per-frame methods, for the library: when it is not
    initialised it stays so. *)
Definition still_down (s s' : State) : Prop :=
  this s' = this s /\ (glfw s = None -> glfw s' = None).

(** Two records of a window agree on what was fixed when it was set up:
    size, title, monitor, context attributes and input modes. *)
Definition same_settings (w w' : window) : Prop :=
  win_width w' = win_width w /\ win_height w' = win_height w /\
  win_title w' = win_title w /\ win_monitor w' = win_monitor w /\
  win_attribs w' = win_attribs w /\ win_modes w' = win_modes w.

(** The frame of the per-frame methods, for the settings: the object
    stays as it is, and every live window stays live with its settings. *)
Definition settings_kept (s s' : State) : Prop :=
  this s' = this s /\
  forall h w, window_at h s = Some w ->
    exists w', window_at h s' = Some w' /\ same_settings w w'.

(** Buffer swaps among calls, and among method calls. *)
Definition is_swap (c : Call) : bool :=
  match c with glfwSwapBuffers_call _ => true | _ => false end.

Definition is_SwapBuffers (o : Op) : bool :=
  match o with OpSwapBuffers => true | _ => false end.

(** The frame of the per-frame methods, for the close flag: the object
    stays as it is and a close flag that is set stays set. *)
Definition close_kept (s s' : State) : Prop :=
  this s' = this s /\
  forall h w, window_at h s = Some w -> win_should_close w <> 0 ->
    exists w', window_at h s' = Some w' /\ win_should_close w' <> 0.

(** More sample platforms. *)
Module MoreSamples.


(** A machine whose user taps Escape once, during the first frame: the
    key goes down and up again before the events are polled. *)
Definition tap : Platform :=
  mkPlatform (fun _ => true) (fun _ => 7%N) (fun _ => true)
             (fun _ => GLEW_OK)
             (fun t => if Nat.eqb t 11
                       then [KeyEvent 1%N GLFW_KEY_ESCAPE GLFW_PRESS;
                             KeyEvent 1%N GLFW_KEY_ESCAPE GLFW_RELEASE]
                       else []).

(** A machine whose user clicks the close button during the first frame. *)
Definition closer : Platform :=
  mkPlatform (fun _ => true) (fun _ => 7%N) (fun _ => true)
             (fun _ => GLEW_OK)
             (fun t => if Nat.eqb t 11 then [CloseEvent 1%N] else []).

(** The state [Initialize] leaves on each of them. *)
Definition started (env : Platform) : State :=
  final (Initialize env 800 600 "First OpenGL Program" false
           (Samples.start 0%N)).

End MoreSamples.

(** * Proofs *)

(** Unfolding of the library calls and of the monad. *)
Ltac unfold_calls :=
  unfold Destroy, bind, ret, glfwInit, glfwTerminate, glfwWindowHint,
    glfwGetPrimaryMonitor, glfwCreateWindow, glfwMakeContextCurrent,
    glfwSetInputMode, glfwSwapBuffers, glfwGetKey, glfwWindowShouldClose,
    glfwPollEvents, glewInit, fprintf_stderr, get_Window, put_Window,
    put_glewExperimental, extern, live, on_window in *.

(** Case analysis on the answers of the platform met along a run. *)
Ltac ask_platform :=
  repeat match goal with
  | |- context [platform_init ?e ?c] =>
      destruct (platform_init e c) eqn:?; cbn
  | |- context [(0 <? ?w) && (0 <? ?h) && platform_window ?e ?c] =>
      destruct ((0 <? w) && (0 <? h) && platform_window e c) eqn:?; cbn
  | |- context [bool_decide (is_Some (<[?k:=?v]> ?m !! ?k))] =>
      rewrite (bool_decide_eq_true_2 (is_Some (<[k:=v]> m !! k)))
        by (rewrite lookup_insert_eq; eauto); cbn
  | |- context [platform_loader ?e ?c] =>
      destruct (platform_loader e c) eqn:?; cbn
  end.

Lemma hints_after_Initialize (h : gmap Z Z) :
  let h' := <[GLFW_OPENGL_PROFILE:=GLFW_OPENGL_CORE_PROFILE]>
              (<[GLFW_CONTEXT_VERSION_MINOR:=4]>
                 (<[GLFW_CONTEXT_VERSION_MAJOR:=4]>
                    (<[GLFW_SAMPLES:=4]> h))) in
  h' !! GLFW_SAMPLES = Some 4 /\
  h' !! GLFW_CONTEXT_VERSION_MAJOR = Some 4 /\
  h' !! GLFW_CONTEXT_VERSION_MINOR = Some 4 /\
  h' !! GLFW_OPENGL_PROFILE = Some GLFW_OPENGL_CORE_PROFILE.
Proof.
  cbv zeta. repeat split; by simplify_map_eq.
Qed.

Lemma Initialize_run env width height strTitle bFullScreen s :
  InitializeRun width height strTitle bFullScreen s
    (Initialize env width height strTitle bFullScreen s).
Proof.
  destruct s as [[p] [l|] fl ld ck]; unfold Initialize; unfold_calls; cbn;
    destruct bFullScreen; cbn; ask_platform.
  all: lazymatch goal with
       | |- InitializeRun _ _ _ _ _ (_, _, [_; _]) =>
           apply run_no_glfw; reflexivity
       | |- InitializeRun _ _ _ ?fs _ (_, ?s', ?c) =>
           lazymatch c with
           | context [glfwCreateWindow_call _ _ _ ?m _ ?h] =>
               lazymatch c with
               | context [glfwTerminate_call] =>
                   apply (run_no_window _ _ _ fs _ s' m); reflexivity
               | context [glewInit_call ?e] =>
                   lazymatch c with
                   | context [fprintf_stderr_call] =>
                       apply (run_no_glew _ _ _ fs _ s' m h e);
                       [ discriminate | reflexivity | | discriminate ]
                   | _ =>
                       apply (run_ok _ _ _ fs _ s' m h);
                       [ discriminate | reflexivity | ]
                   end
               end
           end
       end.
  all: eexists _, _; split; [reflexivity|]; cbn;
       rewrite lookup_alter_eq, lookup_insert_eq; cbn;
       (split; [reflexivity|]); (split; [reflexivity|]);
       apply hints_after_Initialize.
Qed.

(** Runs of a sequence. *)

Lemma result_bind {A B} (m : Prog A) (k : A -> Prog B) s :
  result (bind m k s) = result (k (result (m s)) (final (m s))).
Proof.
  unfold bind, result, final.
  destruct (m s) as [[a s1] c1]; cbn. by destruct (k a s1) as [[b s2] c2].
Qed.

Lemma final_bind {A B} (m : Prog A) (k : A -> Prog B) s :
  final (bind m k s) = final (k (result (m s)) (final (m s))).
Proof.
  unfold bind, result, final.
  destruct (m s) as [[a s1] c1]; cbn. by destruct (k a s1) as [[b s2] c2].
Qed.

Lemma calls_bind {A B} (m : Prog A) (k : A -> Prog B) s :
  calls (bind m k s) = calls (m s) ++ calls (k (result (m s)) (final (m s))).
Proof.
  unfold bind, result, final, calls.
  destruct (m s) as [[a s1] c1]; cbn. by destruct (k a s1) as [[b s2] c2].
Qed.

Section Frames.

Context (R : relation State) `{!PreOrder R}.

Lemma keeps_ret {A} (a : A) : keeps R (ret a).
Proof. intros s. reflexivity. Qed.

Lemma keeps_bind {A B} (m : Prog A) (k : A -> Prog B) :
  keeps R m -> (forall a, keeps R (k a)) -> keeps R (bind m k).
Proof.
  intros Hm Hk s. rewrite final_bind.
  etransitivity; [apply Hm | apply Hk].
Qed.

Lemma keeps_extern {A} (f : State -> A * State) (ev : A -> Call) :
  (forall s, R s (tick s)) -> (forall s, R s (snd (f s))) ->
  keeps R (extern f ev).
Proof.
  intros Ht Hf s. unfold extern, final. specialize (Hf s).
  destruct (f s) as [a s1]; cbn in *. etransitivity; [apply Hf | apply Ht].
Qed.

Lemma keeps_get_Window : keeps R get_Window.
Proof. intros s. reflexivity. Qed.

End Frames.

#[local] Instance same_windows_preorder : PreOrder same_windows.
Proof.
  split.
  - by intros s.
  - intros s1 s2 s3 [H1 H2] [H3 H4]. split; [congruence|].
    intros h. by rewrite H4.
Qed.

#[local] Instance same_object_preorder : PreOrder same_object.
Proof. split; unfold same_object; [by intros s | intros s1 s2 s3; congruence]. Qed.

Lemma same_windows_object s s' : same_windows s s' -> same_object s s'.
Proof. by intros [H _]. Qed.

Lemma same_windows_tick s : same_windows s (tick s).
Proof. by split. Qed.

Lemma same_windows_on_window f h s : same_windows s (on_window f h s).
Proof.
  split; [done|]. intros k. unfold live, on_window.
  destruct (glfw s) as [l|]; cbn; [|done].
  apply bool_decide_ext. apply lookup_alter_is_Some.
Qed.

Lemma same_windows_deliver evs s : same_windows s (fold_left deliver evs s).
Proof.
  revert s. induction evs as [|e evs IH]; intros s; cbn; [reflexivity|].
  etransitivity; [|apply IH].
  destruct e; apply same_windows_on_window.
Qed.

Lemma keeps_glfwSwapBuffers h : keeps same_windows (glfwSwapBuffers h).
Proof.
  apply keeps_extern; [apply _ | apply same_windows_tick |].
  intros s. apply same_windows_on_window.
Qed.

Lemma keeps_glfwGetKey h key : keeps same_windows (glfwGetKey h key).
Proof.
  apply keeps_extern; [apply _ | apply same_windows_tick |].
  intros s. destruct (glfw s) as [l|]; [|reflexivity].
  destruct (lib_windows l !! h) as [w|]; [|reflexivity].
  destruct (key_state key w =? GLFW_STICK); [|reflexivity].
  apply same_windows_on_window.
Qed.

Lemma keeps_glfwWindowShouldClose h : keeps same_windows (glfwWindowShouldClose h).
Proof.
  apply keeps_extern; [apply _ | apply same_windows_tick |].
  intros s. reflexivity.
Qed.

Lemma keeps_glfwPollEvents env : keeps same_windows (glfwPollEvents env).
Proof.
  apply keeps_extern; [apply _ | apply same_windows_tick |].
  intros s. apply same_windows_deliver.
Qed.

Lemma keeps_SwapBuffers : keeps same_windows SwapBuffers.
Proof.
  apply keeps_bind; [apply _ | apply keeps_get_Window; apply _ |].
  intros w. apply keeps_glfwSwapBuffers.
Qed.

Lemma keeps_ProcessInput env continueGame :
  keeps same_windows (ProcessInput env continueGame).
Proof.
  unfold ProcessInput.
  repeat first
    [ apply keeps_bind; [apply _ | | intros ?]
    | apply keeps_get_Window; apply _
    | apply keeps_ret; apply _
    | apply keeps_glfwGetKey
    | apply keeps_glfwWindowShouldClose
    | apply keeps_glfwPollEvents
    | match goal with |- keeps _ (if ?b then _ else _) => destruct b end ].
Qed.

Lemma keeps_Destroy : keeps same_object Destroy.
Proof.
  apply keeps_extern; [apply _ | done | done].
Qed.

Lemma ProcessInput_run env continueGame s :
  ProcessInputRun continueGame s (ProcessInput env continueGame s).
Proof.
  unfold ProcessInput, bind at 1 2, get_Window at 1.
  destruct (glfwGetKey (Window (this s)) GLFW_KEY_ESCAPE s)
    as [[key s1] c1] eqn:Ekey.
  assert (c1 = [glfwGetKey_call (Window (this s)) GLFW_KEY_ESCAPE key]
          /\ this s1 = this s) as [-> Hthis].
  { pose proof (keeps_glfwGetKey (Window (this s)) GLFW_KEY_ESCAPE s) as [H _].
    rewrite Ekey in H. split; [|exact H].
    revert Ekey. unfold glfwGetKey, extern.
    match goal with |- context [let '(_, _) := ?x in _] => destruct x end.
    congruence. }
  destruct (key =? GLFW_PRESS) eqn:Epress.
  - apply Z.eqb_eq in Epress as ->. cbn. apply run_escape.
  - apply Z.eqb_neq in Epress.
    unfold bind, get_Window, glfwWindowShouldClose, glfwPollEvents, extern, ret.
    cbn. rewrite Hthis.
    match goal with |- context [negb (?c =? 0)] =>
      destruct (c =? 0) eqn:Eclose end; cbn.
    + apply Z.eqb_eq in Eclose. rewrite Eclose. by apply run_continue.
    + apply Z.eqb_neq in Eclose. by apply run_close.
Qed.

Lemma window_ready_live s : window_ready s -> live (Window (this s)) s = true.
Proof.
  intros (l & w & Hl & Hw & _). unfold live. rewrite Hl.
  apply bool_decide_eq_true_2. by exists w.
Qed.

Lemma same_windows_valid s s' :
  same_windows s s' -> handle_valid s -> handle_valid s'.
Proof.
  intros [Hthis Hlive] [Hnn Hl]. unfold handle_valid.
  rewrite Hthis, Hlive. by split.
Qed.

Lemma final_run_Initialize env width height strTitle bFullScreen s :
  run_op env (OpInitialize width height strTitle bFullScreen) s =
  (tt, final (Initialize env width height strTitle bFullScreen s),
   calls (Initialize env width height strTitle bFullScreen s)).
Proof.
  cbn. unfold bind, ret, final, calls.
  destruct (Initialize env width height strTitle bFullScreen s) as [[a s1] c1].
  cbn. by rewrite app_nil_r.
Qed.

Lemma keeps_per_frame env o :
  per_frame o = true -> keeps same_windows (run_op env o).
Proof.
  destruct o; try discriminate; intros _; cbn.
  - apply keeps_SwapBuffers.
  - apply keeps_bind; [apply _ | apply keeps_ProcessInput |].
    intros ?. apply keeps_ret. apply _.
Qed.

Lemma no_terminate_per_frame env o s :
  per_frame o = true -> ~ In glfwTerminate_call (calls (run_op env o s)).
Proof.
  destruct o; try discriminate; intros _; cbn.
  - unfold SwapBuffers, bind, get_Window, glfwSwapBuffers, extern. cbn.
    intros [H|[]]. discriminate.
  - unfold run_op. rewrite calls_bind. unfold ret at 1, calls at 2.
    cbn [snd]. rewrite app_nil_r.
    destruct (ProcessInput_run env continueGame s); cbn;
      intuition discriminate.
Qed.

(** One method call other than [Destroy] on a valid handle: the handle
    is valid afterwards, or the call was an [Initialize] that got no
    window. *)
Lemma run_op_valid env o s :
  is_Destroy o = false ->
  handle_valid s ->
  handle_valid (final (run_op env o s)) \/
  window_refused (calls (run_op env o s)).
Proof.
  intros Ho Hv. destruct o as [width height strTitle bFullScreen| | |];
    try discriminate.
  - rewrite final_run_Initialize. unfold final at 1, calls at 1. cbn [fst snd].
    pose proof (Initialize_run env width height strTitle bFullScreen s) as Hrun.
    destruct Hrun as [s' Hnone _ _ | s' monitor _ _ | s' monitor h err Hh Hw Hr _
                     | s' monitor h Hh Hw Hr].
    + destruct Hv as [_ Hl]. unfold live in Hl. by rewrite Hnone in Hl.
    + right.
      exists width, height, strTitle,
        (if bFullScreen then monitor else nullptr), nullptr.
      unfold calls, hint_calls, create_calls.
      destruct bFullScreen; cbn; tauto.
    + left. split; [cbn; by rewrite Hw | by apply window_ready_live].
    + left. split; [cbn; by rewrite Hw | by apply window_ready_live].
  - left. eapply same_windows_valid; [|exact Hv].
    by apply (keeps_per_frame env OpSwapBuffers).
  - left. eapply same_windows_valid; [|exact Hv].
    by apply (keeps_per_frame env (OpProcessInput continueGame)).
Qed.

Lemma window_refused_app c1 c2 :
  window_refused (c1 ++ c2) <-> window_refused c1 \/ window_refused c2.
Proof.
  unfold window_refused. split.
  - intros (w & h & t & m & sh & H). apply in_app_or in H as [H|H];
      [left | right]; by exists w, h, t, m, sh.
  - intros [(w & h & t & m & sh & H)|(w & h & t & m & sh & H)];
      exists w, h, t, m, sh; apply in_or_app; auto.
Qed.

Lemma run_ops_valid env ops : forall s,
  forallb (fun o => negb (is_Destroy o)) ops = true ->
  handle_valid s ->
  handle_valid (final (run_ops env ops s)) \/
  window_refused (calls (run_ops env ops s)).
Proof.
  induction ops as [|o ops IH]; intros s Hops Hv; cbn [run_ops].
  - by left.
  - cbn in Hops. apply andb_true_iff in Hops as [Ho Hops].
    apply negb_true_iff in Ho.
    rewrite final_bind, calls_bind, window_refused_app.
    destruct (run_op_valid env o s Ho Hv) as [Hv'|Hin]; [|by right; left].
    destruct (IH _ Hops Hv') as [?|?]; [by left | by right; right].
Qed.

Lemma run_ops_per_frame env ops : forall s,
  forallb per_frame ops = true ->
  same_windows s (final (run_ops env ops s)) /\
  ~ In glfwTerminate_call (calls (run_ops env ops s)).
Proof.
  induction ops as [|o ops IH]; intros s Hops; cbn [run_ops].
  - split; [reflexivity | by intros []].
  - cbn in Hops. apply andb_true_iff in Hops as [Ho Hops].
    rewrite final_bind, calls_bind.
    destruct (IH (final (run_op env o s)) Hops) as [Hs Hn].
    split.
    + etransitivity; [by apply keeps_per_frame | exact Hs].
    + intros Hin. apply in_app_or in Hin as [Hin|Hin]; [|by apply Hn].
      by apply (no_terminate_per_frame env o s).
Qed.

Lemma run_ops_same_object env ops : forall s,
  forallb (fun o => negb (is_Initialize o)) ops = true ->
  same_object s (final (run_ops env ops s)).
Proof.
  induction ops as [|o ops IH]; intros s Hops; cbn [run_ops].
  - reflexivity.
  - cbn in Hops. apply andb_true_iff in Hops as [Ho Hops].
    rewrite final_bind.
    etransitivity; [|by apply IH].
    destruct o; try discriminate.
    + apply same_windows_object. by apply (keeps_per_frame env OpSwapBuffers).
    + apply same_windows_object.
      by apply (keeps_per_frame env (OpProcessInput continueGame)).
    + apply keeps_Destroy.
Qed.

(** ** The properties *)

(** Membership of a call in the calls of a run of [Initialize]. *)
Ltac in_calls H :=
  unfold hint_calls, create_calls, setup_calls in H;
  repeat match type of H with
  | context [if ?b then _ else _] => destruct b
  end;
  cbn in H; intuition (try discriminate; try congruence).

(** Replace a run of [Initialize] by its four shapes. *)
Ltac by_run env width height strTitle bFullScreen s :=
  generalize (Initialize_run env width height strTitle bFullScreen s);
  generalize (Initialize env width height strTitle bFullScreen s);
  let r := fresh "r" in
  let Hrun := fresh "Hrun" in
  intros r Hrun;
  destruct Hrun as [s' Hnone Hnone' Hthis | s' monitor Hnone Hnull
                   | s' monitor h err Hh Hw Hready Herr
                   | s' monitor h Hh Hw Hready];
  unfold result, final, calls; cbn [fst snd].

(** C1: [Initialize] returns a negative status code when [glfwInit]
    reports failure, and when [glfwCreateWindow] returns the null
    pointer. *)
Theorem Initialize_fails_without_library_or_window
    env width height strTitle bFullScreen s :
  let r := Initialize env width height strTitle bFullScreen s in
  In (glfwInit_call GLFW_FALSE) (calls r) \/
  (exists monitor share,
     In (glfwCreateWindow_call width height strTitle monitor share nullptr)
        (calls r)) ->
  result r < 0.
Proof.
  cbv zeta. by_run env width height strTitle bFullScreen s;
    intros [H | (m & sh & H)]; try lia; exfalso; in_calls H.
Qed.

(** On a machine where GLFW cannot initialise. *)
Lemma Initialize_fails_without_library_or_window_witness :
  In (glfwInit_call GLFW_FALSE)
     (calls (Initialize Samples.no_glfw 800 600 "demo" false
               (Samples.start 0%N))) /\
  result (Initialize Samples.no_glfw 800 600 "demo" false
            (Samples.start 0%N)) < 0.
Proof.
  split.
  - vm_compute. by left.
  - apply (Initialize_fails_without_library_or_window
             Samples.no_glfw 800 600 "demo" false (Samples.start 0%N)).
    left. vm_compute. by left.
Defined.

(** The run behind the next lemma: [Window] holds handle 1, Escape reads
    as pressed, and the only call made is that read. *)
Example escape_held_run :
  let r := ProcessInput Samples.typist true Samples.escape_held in
  Window (this Samples.escape_held) = 1%N /\
  result r = false /\
  calls r = [glfwGetKey_call 1%N GLFW_KEY_ESCAPE GLFW_PRESS].
Proof. vm_compute. auto. Qed.

(** The frame before it, from the state [Initialize] left: nothing
    pressed yet, so the events are polled and the flag comes back. *)
Example first_frame_run :
  let s := final (Initialize Samples.typist 800 600 "First OpenGL Program"
                    false (Samples.start 0%N)) in
  let r := ProcessInput Samples.typist true s in
  result r = true /\
  calls r = [glfwGetKey_call 1%N GLFW_KEY_ESCAPE GLFW_RELEASE;
             glfwWindowShouldClose_call 1%N 0;
             glfwPollEvents_call].
Proof. vm_compute. auto. Qed.

(** C2, as stated, fails: with Escape held down, [ProcessInput] returns
    false without polling the events. *)
Lemma ProcessInput_exit_without_poll :
  ~ polls_and_checks Samples.typist true Samples.escape_held.
Proof.
  intros [H _]. vm_compute in H. intuition discriminate.
Qed.

(** C2, amended: [ProcessInput] first reads the Escape key and, when it
    is not pressed, the close flag of the window; when either shows an
    exit request it returns false without polling; otherwise it polls
    the events once and returns [continueGame] as passed in. *)
Theorem ProcessInput_checks_then_polls env continueGame s :
  let r := ProcessInput env continueGame s in
  let h := Window (this s) in
  (result r = false /\
   calls r = [glfwGetKey_call h GLFW_KEY_ESCAPE GLFW_PRESS]) \/
  (exists key close,
     key <> GLFW_PRESS /\ close <> 0 /\ result r = false /\
     calls r = [glfwGetKey_call h GLFW_KEY_ESCAPE key;
                glfwWindowShouldClose_call h close]) \/
  (exists key,
     key <> GLFW_PRESS /\ result r = continueGame /\
     calls r = [glfwGetKey_call h GLFW_KEY_ESCAPE key;
                glfwWindowShouldClose_call h 0;
                glfwPollEvents_call]).
Proof.
  cbv zeta.
  destruct (ProcessInput_run env continueGame s) as [s'|s' key close Hk Hc|s' key Hk];
    unfold result, calls; cbn [fst snd].
  - by left.
  - right. left. by exists key, close.
  - right. right. by exists key.
Qed.

(** C3: when [glfwInit] succeeds, [glfwCreateWindow] returns a window and
    [glewInit] returns GLEW_OK, [Initialize] returns 0, which is not
    negative. *)
Theorem Initialize_success_returns_zero
    env width height strTitle bFullScreen s :
  let r := Initialize env width height strTitle bFullScreen s in
  In (glfwInit_call GLFW_TRUE) (calls r) ->
  (exists monitor share h,
     h <> nullptr /\
     In (glfwCreateWindow_call width height strTitle monitor share h)
        (calls r)) ->
  In (glewInit_call GLEW_OK) (calls r) ->
  result r = 0 /\ 0 <= result r.
Proof.
  cbv zeta. by_run env width height strTitle bFullScreen s;
    intros _ _ H; try (split; [reflexivity | lia]); exfalso; in_calls H.
Qed.

(** A full-screen window on a machine where nothing fails. *)
Lemma Initialize_success_returns_zero_witness :
  result (Initialize Samples.good 800 600 "demo" true (Samples.start 0%N)) = 0
  /\ 0 <= result (Initialize Samples.good 800 600 "demo" true
                    (Samples.start 0%N)).
Proof.
  apply (Initialize_success_returns_zero
           Samples.good 800 600 "demo" true (Samples.start 0%N)).
  - vm_compute. by left.
  - exists 7%N, nullptr, 1%N. split; [discriminate|].
    vm_compute. do 6 right. by left.
  - vm_compute. do 9 right. by left.
Defined.

(** The stderr output of each shape of run. *)
Lemma stderr_no_window width height strTitle bFullScreen monitor :
  stderr_of (glfwInit_call GLFW_TRUE :: hint_calls ++
             create_calls width height strTitle bFullScreen monitor nullptr ++
             [fprintf_stderr_call msg_window; glfwTerminate_call])
  = [msg_window].
Proof. by destruct bFullScreen. Qed.

Lemma stderr_no_glew width height strTitle bFullScreen monitor h err :
  stderr_of (glfwInit_call GLFW_TRUE :: hint_calls ++
             create_calls width height strTitle bFullScreen monitor h ++
             setup_calls h err ++ [fprintf_stderr_call msg_glew])
  = [msg_glew].
Proof. by destruct bFullScreen. Qed.

Lemma stderr_ok width height strTitle bFullScreen monitor h :
  stderr_of (glfwInit_call GLFW_TRUE :: hint_calls ++
             create_calls width height strTitle bFullScreen monitor h ++
             setup_calls h GLEW_OK)
  = [].
Proof. by destruct bFullScreen. Qed.

(** C4: every failure path of [Initialize] writes its diagnostic to
    standard error and returns -1: when [glfwInit] reports failure, when
    [glfwCreateWindow] returns the null pointer, and when [glewInit]
    returns something else than GLEW_OK, the run returns -1 and its
    output on standard error is the one message of that path.  A run
    that returns a negative status has met one of these three failures;
    and the status is negative exactly when something was written to
    standard error, so no failure is silent and no success is reported
    with a diagnostic. *)
Theorem Initialize_failure_paths_report
    env width height strTitle bFullScreen s :
  let r := Initialize env width height strTitle bFullScreen s in
  (In (glfwInit_call GLFW_FALSE) (calls r) ->
   result r = -1 /\ stderr_of (calls r) = [msg_glfw]) /\
  ((exists monitor share,
      In (glfwCreateWindow_call width height strTitle monitor share nullptr)
         (calls r)) ->
   result r = -1 /\ stderr_of (calls r) = [msg_window]) /\
  ((exists err, err <> GLEW_OK /\ In (glewInit_call err) (calls r)) ->
   result r = -1 /\ stderr_of (calls r) = [msg_glew]) /\
  (result r < 0 ->
   In (glfwInit_call GLFW_FALSE) (calls r) \/
   (exists monitor share,
      In (glfwCreateWindow_call width height strTitle monitor share nullptr)
         (calls r)) \/
   (exists err, err <> GLEW_OK /\ In (glewInit_call err) (calls r))) /\
  ((result r = 0 /\ stderr_of (calls r) = []) \/
   (result r = -1 /\
    exists msg, stderr_of (calls r) = [msg] /\
                In msg [msg_glfw; msg_window; msg_glew])) /\
  (result r < 0 <-> stderr_of (calls r) <> []).
Proof.
  cbv zeta. by_run env width height strTitle bFullScreen s;
    rewrite ?stderr_no_window, ?stderr_no_glew, ?stderr_ok.
  - split; [by intros _|].
    split; [intros (m & sh & H); exfalso; in_calls H|].
    split; [intros (e & He & H); exfalso; in_calls H|].
    split; [intros _; left; by left|].
    split; [right; split; [done|]; exists msg_glfw; cbn; auto|].
    cbn. split; [discriminate | lia].
  - split; [intros H; exfalso; in_calls H|].
    split; [by intros _|].
    split; [intros (e & He & H); exfalso; in_calls H|].
    split.
    { intros _. right. left.
      exists (if bFullScreen then monitor else nullptr), nullptr.
      unfold hint_calls, create_calls. destruct bFullScreen; cbn; tauto. }
    split; [right; split; [done|]; exists msg_window; cbn; auto|].
    split; [discriminate | lia].
  - split; [intros H; exfalso; in_calls H|].
    split; [intros (m & sh & H); exfalso; in_calls H|].
    split; [by intros _|].
    split.
    { intros _. right. right. exists err. split; [done|].
      unfold hint_calls, create_calls, setup_calls.
      destruct bFullScreen; cbn; tauto. }
    split; [right; split; [done|]; exists msg_glew; cbn; auto|].
    split; [discriminate | lia].
  - split; [intros H; exfalso; in_calls H|].
    split; [intros (m & sh & H); exfalso; in_calls H|].
    split; [intros (e & He & H); exfalso; in_calls H|].
    split; [lia|].
    split; [by left|]. split; [lia | done].
Qed.

(** The three failures, each on a machine that produces it. *)
Lemma Initialize_failure_paths_report_witness :
  (result (Initialize Samples.no_glfw 800 600 "demo" false
             (Samples.start 0%N)) = -1 /\
   stderr_of (calls (Initialize Samples.no_glfw 800 600 "demo" false
                       (Samples.start 0%N))) = [msg_glfw]) /\
  (result (Initialize Samples.no_window 800 600 "demo" true
             (Samples.start 0%N)) = -1 /\
   stderr_of (calls (Initialize Samples.no_window 800 600 "demo" true
                       (Samples.start 0%N))) = [msg_window]) /\
  (result (Initialize Samples.no_glew 800 600 "demo" false
             (Samples.start 0%N)) = -1 /\
   stderr_of (calls (Initialize Samples.no_glew 800 600 "demo" false
                       (Samples.start 0%N))) = [msg_glew]).
Proof.
  split; [|split].
  - apply (proj1 (Initialize_failure_paths_report Samples.no_glfw 800 600
                    "demo" false (Samples.start 0%N))).
    vm_compute. by left.
  - apply (proj1 (proj2 (Initialize_failure_paths_report Samples.no_window
                           800 600 "demo" true (Samples.start 0%N)))).
    exists 7%N, nullptr. vm_compute. do 6 right. by left.
  - apply (proj1 (proj2 (proj2 (Initialize_failure_paths_report
                                  Samples.no_glew 800 600 "demo" false
                                  (Samples.start 0%N))))).
    exists 1. split; [discriminate|]. vm_compute. do 8 right. by left.
Defined.

(** C5: a run of [Initialize] that returns 0 has set the hints
    multisampling 4, context version 4.4 and core profile, in this order
    and with these values whatever the arguments, before it created the
    window; the window it holds has these attributes. *)
Theorem Initialize_fixed_hints env width height strTitle bFullScreen s :
  let r := Initialize env width height strTitle bFullScreen s in
  result r = 0 ->
  exists monitor h,
    calls r =
      glfwInit_call GLFW_TRUE ::
      [ glfwWindowHint_call GLFW_SAMPLES 4;
        glfwWindowHint_call GLFW_CONTEXT_VERSION_MAJOR 4;
        glfwWindowHint_call GLFW_CONTEXT_VERSION_MINOR 4;
        glfwWindowHint_call GLFW_OPENGL_PROFILE GLFW_OPENGL_CORE_PROFILE ] ++
      create_calls width height strTitle bFullScreen monitor h ++
      setup_calls h GLEW_OK /\
    h <> nullptr /\
    Window (this (final r)) = h /\
    window_ready (final r).
Proof.
  cbv zeta. by_run env width height strTitle bFullScreen s;
    intros H; try discriminate.
  by exists monitor, h.
Qed.

(** The hints do not follow the size asked for. *)
Lemma Initialize_fixed_hints_witness :
  let r := Initialize Samples.good 1024 768 "demo" true (Samples.start 0%N) in
  result r = 0 /\
  exists monitor h,
    calls r =
      glfwInit_call GLFW_TRUE ::
      [ glfwWindowHint_call GLFW_SAMPLES 4;
        glfwWindowHint_call GLFW_CONTEXT_VERSION_MAJOR 4;
        glfwWindowHint_call GLFW_CONTEXT_VERSION_MINOR 4;
        glfwWindowHint_call GLFW_OPENGL_PROFILE GLFW_OPENGL_CORE_PROFILE ] ++
      create_calls 1024 768 "demo" true monitor h ++
      setup_calls h GLEW_OK /\
    h <> nullptr /\
    Window (this (final r)) = h /\
    window_ready (final r).
Proof.
  split.
  - vm_compute. reflexivity.
  - apply (Initialize_fixed_hints
             Samples.good 1024 768 "demo" true (Samples.start 0%N)).
    vm_compute. reflexivity.
Defined.

(** C6: [Destroy] makes one call, [glfwTerminate]; when it returns GLFW
    is no longer initialised, so no window or context is left, the one
    named by [Window] included. *)
Theorem Destroy_terminates_library s :
  let r := Destroy s in
  calls r = [glfwTerminate_call] /\
  glfw (final r) = None /\
  (forall h, live h (final r) = false) /\
  ~ handle_valid (final r).
Proof.
  cbv zeta. repeat split.
  intros [_ H]. discriminate.
Qed.

(** C7: [main] has no parameters, and returns the value that [GLMain]
    returned, as it is. *)
Theorem main_returns_GLMain
    (GLApplication : Type) (ctor : Prog GLApplication)
    (dtor : GLApplication -> Prog unit) (GLMain : GLApplication -> Prog Z) s :
  result (main GLApplication ctor dtor GLMain s) =
  result (GLMain (result (ctor s)) (final (ctor s))).
Proof.
  unfold main. by rewrite !result_bind.
Qed.

(** C8, as stated, fails: a second [Initialize] that gets no window
    stores the null pointer in [Window], and [Initialize] is not
    [Destroy]. *)
Lemma later_Initialize_stores_nullptr :
  ~ valid_until_Destroy Samples.one_window 800 600 "demo" false
      (Samples.start 0%N) [OpInitialize 800 600 "demo" false].
Proof.
  intros H. apply H; vm_compute; reflexivity.
Qed.

(** The run behind it: the first call leaves handle 1 in [Window]; the
    second is refused its window, stores the null pointer, writes its
    diagnostic and goes through [Destroy]. *)
Example second_Initialize_run :
  let s := final (Initialize Samples.one_window 800 600 "demo" false
                    (Samples.start 0%N)) in
  let r := Initialize Samples.one_window 800 600 "demo" false s in
  Window (this s) = 1%N /\
  result r = -1 /\
  Window (this (final r)) = nullptr /\
  In glfwTerminate_call (calls r).
Proof. vm_compute. intuition. Qed.

(** C8, amended: [Initialize] returning 0 leaves a valid handle in
    [Window]: not null, and naming a live window.  Any number of
    [SwapBuffers] and [ProcessInput] calls keep that handle and keep it
    valid.  Of the methods other than [Destroy] only a later [Initialize]
    can invalidate it, and only when its [glfwCreateWindow] returns
    null: over any sequence of such methods in which no window was
    refused the handle is valid at the end, and an [Initialize] that is
    refused its window leaves the null pointer in [Window]. *)
Theorem Window_valid_across_frames
    env width height strTitle bFullScreen s :
  let r := Initialize env width height strTitle bFullScreen s in
  result r = 0 ->
  handle_valid (final r) /\
  (forall ops, forallb per_frame ops = true ->
     let r' := run_ops env ops (final r) in
     Window (this (final r')) = Window (this (final r)) /\
     handle_valid (final r')) /\
  (forall ops, forallb (fun o => negb (is_Destroy o)) ops = true ->
     let r' := run_ops env ops (final r) in
     ~ window_refused (calls r') -> handle_valid (final r')) /\
  (forall width' height' strTitle' bFullScreen' s1,
     let r1 := Initialize env width' height' strTitle' bFullScreen' s1 in
     window_refused (calls r1) -> Window (this (final r1)) = nullptr).
Proof.
  cbv zeta. intros H0.
  assert (handle_valid
            (final (Initialize env width height strTitle bFullScreen s))) as Hv.
  { revert H0. by_run env width height strTitle bFullScreen s;
      intros H; try discriminate.
    split; [by rewrite Hw | by apply window_ready_live]. }
  split; [exact Hv|]. split; [|split].
  - intros ops Hops.
    destruct (run_ops_per_frame env ops
                (final (Initialize env width height strTitle bFullScreen s))
                Hops) as [Hs _].
    split; [by destruct Hs as [-> _] | by eapply same_windows_valid].
  - intros ops Hops Hnot.
    by destruct (run_ops_valid env ops
                   (final (Initialize env width height strTitle bFullScreen s))
                   Hops Hv).
  - intros width' height' strTitle' bFullScreen' s1. clear.
    by_run env width' height' strTitle' bFullScreen' s1;
      intros (w0 & h0 & t0 & m0 & sh0 & H); try done; exfalso; in_calls H.
Qed.

(** Two frames of the game loop after a successful start. *)
Lemma Window_valid_across_frames_witness :
  let r := Initialize Samples.good 800 600 "demo" false (Samples.start 0%N) in
  result r = 0 /\
  handle_valid (final (run_ops Samples.good Samples.frames (final r))).
Proof.
  split.
  - vm_compute. reflexivity.
  - destruct (Window_valid_across_frames
                Samples.good 800 600 "demo" false (Samples.start 0%N))
      as (_ & Hframes & _).
    + vm_compute. reflexivity.
    + apply (Hframes Samples.frames). vm_compute. reflexivity.
Defined.

(** C9: when [glfwCreateWindow] returns null, [Initialize] writes its
    diagnostic, calls [Destroy] (so GLFW is terminated) and returns -1;
    when [glewInit] fails it returns -1 without [Destroy]: no
    [glfwTerminate] is called, GLFW stays initialised and the window in
    [Window] and its context stay alive. *)
Theorem Initialize_cleanup_asymmetric
    env width height strTitle bFullScreen s :
  let r := Initialize env width height strTitle bFullScreen s in
  ((exists monitor share,
      In (glfwCreateWindow_call width height strTitle monitor share nullptr)
         (calls r)) ->
   result r = -1 /\
   (exists pre,
      calls r = pre ++ [fprintf_stderr_call msg_window; glfwTerminate_call]) /\
   glfw (final r) = None) /\
  ((exists err, err <> GLEW_OK /\ In (glewInit_call err) (calls r)) ->
   result r = -1 /\
   ~ In glfwTerminate_call (calls r) /\
   handle_valid (final r) /\
   window_ready (final r)).
Proof.
  cbv zeta. by_run env width height strTitle bFullScreen s; split.
  all: try solve [intros (m & sh & H); exfalso; in_calls H].
  all: try solve [intros (e & He & H); exfalso; in_calls H].
  - intros _. split; [done|]. split; [|done].
    exists (glfwInit_call GLFW_TRUE :: hint_calls ++
            create_calls width height strTitle bFullScreen monitor nullptr).
    reflexivity.
  - intros _. split; [done|]. split; [|split; [|done]].
    + intros H. in_calls H.
    + split; [by rewrite Hw | by apply window_ready_live].
Qed.

(** One machine that grants no window, one on which GLEW fails. *)
Lemma Initialize_cleanup_asymmetric_witness :
  (result (Initialize Samples.no_window 800 600 "demo" false
             (Samples.start 0%N)) = -1 /\
   glfw (final (Initialize Samples.no_window 800 600 "demo" false
                  (Samples.start 0%N))) = None) /\
  (result (Initialize Samples.no_glew 800 600 "demo" false
             (Samples.start 0%N)) = -1 /\
   handle_valid (final (Initialize Samples.no_glew 800 600 "demo" false
                          (Samples.start 0%N)))).
Proof.
  split.
  - destruct (proj1 (Initialize_cleanup_asymmetric
                       Samples.no_window 800 600 "demo" false
                       (Samples.start 0%N))) as (H1 & _ & H2).
    + exists nullptr, nullptr. vm_compute. do 5 right. by left.
    + by split.
  - destruct (proj2 (Initialize_cleanup_asymmetric
                       Samples.no_glew 800 600 "demo" false
                       (Samples.start 0%N))) as (H1 & _ & H2 & _).
    + exists 1. split; [discriminate|]. vm_compute. do 8 right. by left.
    + by split.
Defined.

(** C10: over any sequence of [SwapBuffers], [ProcessInput] and
    [Destroy] calls the data member [Window] keeps its value: of the four
    methods only [Initialize] assigns it. *)
Theorem Window_assigned_only_by_Initialize env ops s :
  forallb (fun o => negb (is_Initialize o)) ops = true ->
  Window (this (final (run_ops env ops s))) = Window (this s).
Proof.
  intros Hops. by rewrite (run_ops_same_object env ops s Hops).
Qed.

(** Frames, then [Destroy], then a stray [SwapBuffers]: the handle is
    stale but the field still holds it. *)
Lemma Window_assigned_only_by_Initialize_witness :
  Window (this (final (run_ops Samples.good
                         (Samples.frames ++ [OpDestroy; OpSwapBuffers])
                         Samples.running)))
  = Window (this Samples.running).
Proof.
  apply (Window_assigned_only_by_Initialize Samples.good
           (Samples.frames ++ [OpDestroy; OpSwapBuffers]) Samples.running).
  vm_compute. reflexivity.
Defined.

(** * Further properties of the methods *)

(** ** Initialize *)

(** X1: [Initialize] fails exactly for three reasons: [glfwInit] reports
    failure, [glfwCreateWindow] returns the null pointer, or [glewInit]
    returns something else than GLEW_OK. *)
Theorem Initialize_failure_causes env width height strTitle bFullScreen s :
  let r := Initialize env width height strTitle bFullScreen s in
  result r < 0 <->
  In (glfwInit_call GLFW_FALSE) (calls r) \/
  (exists monitor,
     In (glfwCreateWindow_call width height strTitle monitor nullptr nullptr)
        (calls r)) \/
  (exists err, err <> GLEW_OK /\ In (glewInit_call err) (calls r)).
Proof.
  cbv zeta. by_run env width height strTitle bFullScreen s;
    (split; [intros Hlt | intros Hwhy]); try lia.
  - left. by left.
  - right. left. exists (if bFullScreen then monitor else nullptr).
    unfold hint_calls, create_calls. destruct bFullScreen; cbn; tauto.
  - right. right. exists err. split; [done|].
    unfold hint_calls, create_calls, setup_calls.
    destruct bFullScreen; cbn; tauto.
  - destruct Hwhy as [H | [(m & H) | (e & He & H)]]; exfalso; in_calls H.
Qed.

(** X2: what [Window] holds after [Initialize]: when [glfwInit] failed,
    what it held before, also when that is a stale handle; otherwise what
    [glfwCreateWindow] returned, null or not, also when [glewInit] failed
    afterwards. *)
Theorem Initialize_Window_after env width height strTitle bFullScreen s :
  let r := Initialize env width height strTitle bFullScreen s in
  (In (glfwInit_call GLFW_FALSE) (calls r) ->
   Window (this (final r)) = Window (this s)) /\
  (forall monitor share h,
     In (glfwCreateWindow_call width height strTitle monitor share h)
        (calls r) ->
     Window (this (final r)) = h).
Proof.
  cbv zeta. by_run env width height strTitle bFullScreen s; split.
  all: try solve [intros H; exfalso; in_calls H].
  all: try solve [intros m sh h0 H; exfalso; in_calls H].
  - intros _. by rewrite Hthis.
  - intros m sh h0 H. rewrite Hnull. in_calls H.
  - intros m sh h0 H. rewrite Hw. in_calls H.
  - intros m sh h0 H. rewrite Hw. in_calls H.
Qed.

Lemma Initialize_Window_after_witness :
  Window (this (final (Initialize Samples.no_glfw 800 600 "demo" false
                         (Samples.start 5%N)))) = 5%N /\
  Window (this (final (Initialize Samples.no_window 800 600 "demo" false
                         (Samples.start 5%N)))) = nullptr.
Proof.
  split.
  - apply (proj1 (Initialize_Window_after Samples.no_glfw 800 600 "demo"
                    false (Samples.start 5%N))).
    vm_compute. by left.
  - apply (proj2 (Initialize_Window_after Samples.no_window 800 600 "demo"
                    false (Samples.start 5%N)) nullptr nullptr nullptr).
    vm_compute. do 5 right. by left.
Defined.

(** X3: the monitor [Initialize] asks the window on.  Windowed, it never
    asks for the primary monitor and passes the null pointer; full
    screen, it passes what [glfwGetPrimaryMonitor] returned, as it is.
    The window is shared with no other in both cases. *)
Theorem Initialize_monitor_argument env width height strTitle bFullScreen s :
  let r := Initialize env width height strTitle bFullScreen s in
  forall monitor share h,
    In (glfwCreateWindow_call width height strTitle monitor share h)
       (calls r) ->
    share = nullptr /\
    if bFullScreen
    then In (glfwGetPrimaryMonitor_call monitor) (calls r)
    else monitor = nullptr /\
         forall m, ~ In (glfwGetPrimaryMonitor_call m) (calls r).
Proof.
  cbv zeta. by_run env width height strTitle bFullScreen s;
    intros m sh h0 H; unfold hint_calls, create_calls, setup_calls in *;
    destruct bFullScreen; cbn in *;
    intuition (try discriminate; try congruence).
Qed.

Lemma Initialize_monitor_argument_witness :
  In (glfwGetPrimaryMonitor_call 7%N)
     (calls (Initialize Samples.good 800 600 "demo" true (Samples.start 0%N))).
Proof.
  apply (Initialize_monitor_argument Samples.good 800 600 "demo" true
           (Samples.start 0%N) 7%N nullptr 1%N).
  vm_compute. do 6 right. by left.
Defined.

(** All runs of [Initialize], one goal per answer of the platform. *)
Ltac all_runs s bFullScreen :=
  destruct s as [[p] [l|] fl ld ck]; unfold Initialize; unfold_calls;
  unfold result, final, calls, window_at; cbn;
  destruct bFullScreen; cbn; ask_platform.




(** X5: [Initialize] destroys nothing unless it goes through [Destroy]:
    on a run without [glfwTerminate], a window that was live before and
    is not the one [Window] names afterwards is still live and is as it
    was.  So a second [Initialize] leaves the first window behind. *)
Theorem Initialize_leaves_other_windows
    env width height strTitle bFullScreen s :
  let r := Initialize env width height strTitle bFullScreen s in
  ~ In glfwTerminate_call (calls r) ->
  forall k w,
    window_at k s = Some w ->
    k <> Window (this (final r)) ->
    window_at k (final r) = Some w.
Proof.
  cbv zeta. all_runs s bFullScreen; intros Hnt k w Hk Hne;
    try discriminate; try done.
  all: try solve [exfalso; apply Hnt; cbn; tauto].
  all: by rewrite lookup_alter_ne, lookup_insert_ne.
Qed.

Lemma Initialize_leaves_other_windows_witness :
  let s := MoreSamples.started Samples.good in
  let r := Initialize Samples.good 640 480 "second" false s in
  Window (this s) = 1%N /\ Window (this (final r)) = 2%N /\
  window_at 1%N (final r) = window_at 1%N s /\ is_Some (window_at 1%N s).
Proof.
  cbv zeta.
  destruct (window_at 1%N (MoreSamples.started Samples.good)) as [w|] eqn:E;
    [|vm_compute in E; discriminate].
  split; [vm_compute; reflexivity|]. split; [vm_compute; reflexivity|].
  split; [|by exists w].
  apply (Initialize_leaves_other_windows Samples.good 640 480 "second" false
           (MoreSamples.started Samples.good)).
  - vm_compute. intuition discriminate.
  - exact E.
  - vm_compute. discriminate.
Defined.

(** ** ProcessInput *)

(** [ProcessInput] by the state it starts in. *)
Lemma ProcessInput_by_state env continueGame s :
  let r := ProcessInput env continueGame s in
  result r = (if exit_requested s then false else continueGame) /\
  (In glfwPollEvents_call (calls r) <-> exit_requested s = false) /\
  (exit_requested s = false ->
   final r = tick (fold_left deliver (polled_events env s) (tick (tick s)))).
Proof.
  cbv zeta. destruct s as [[p] [l|] fl ld ck];
    unfold ProcessInput, exit_requested, escape_reads_pressed, reads_pressed,
      close_flag_set, window_at, polled_events, result, final, calls;
    unfold_calls; cbn.
  - destruct (lib_windows l !! p) as [w|] eqn:E; cbn.
    + destruct (key_state GLFW_KEY_ESCAPE w =? GLFW_STICK) eqn:Es; cbn.
      * rewrite orb_true_r. cbn. split; [reflexivity|].
        intuition discriminate.
      * rewrite orb_false_r.
        destruct (key_state GLFW_KEY_ESCAPE w =? GLFW_PRESS) eqn:Ep; cbn.
        -- split; [reflexivity|]. intuition discriminate.
        -- rewrite E. cbn.
           destruct (win_should_close w =? 0) eqn:Ec; cbn;
             (split; [reflexivity|]); intuition (try discriminate; auto).
    + rewrite E. cbn. split; [reflexivity|]. intuition.
  - split; [reflexivity|]. intuition.
Qed.

(** X6: what [ProcessInput] returns is decided by the state it starts
    in: false when Escape reads as pressed or the close flag is set,
    [continueGame] otherwise.  The events are polled exactly in the
    second case, after the checks, so what arrives during a call cannot
    change what that call returns. *)
Theorem ProcessInput_decided_before_poll env continueGame s :
  let r := ProcessInput env continueGame s in
  result r = (if exit_requested s then false else continueGame) /\
  (In glfwPollEvents_call (calls r) <-> exit_requested s = false).
Proof.
  cbv zeta.
  destruct (ProcessInput_by_state env continueGame s) as (H1 & H2 & _).
  by split.
Qed.

(** Events, window by window. *)
Lemma window_at_on_window f k h s :
  window_at h (on_window f k s) =
  if decide (k = h) then f <$> window_at h s else window_at h s.
Proof.
  unfold window_at, on_window. destruct (glfw s) as [l|]; cbn.
  - rewrite lookup_alter. by destruct (decide (k = h)) as [->|].
  - by destruct (decide (k = h)).
Qed.

Lemma window_at_deliver h s e :
  window_at h (deliver s e) = (fun w => deliver_to h w e) <$> window_at h s.
Proof.
  destruct e; cbn; rewrite window_at_on_window; case_decide;
    by destruct (window_at h s).
Qed.

Lemma window_at_deliver_all h evs : forall s,
  window_at h (fold_left deliver evs s) =
  (fun w => fold_left (deliver_to h) evs w) <$> window_at h s.
Proof.
  induction evs as [|e evs IH]; intros s; cbn.
  - by destruct (window_at h s).
  - rewrite IH, window_at_deliver. by destruct (window_at h s).
Qed.

(** [input_key] goes through [set_key] or leaves the window as it is. *)
Lemma input_key_cases key action w :
  input_key key action w = w \/
  exists v, input_key key action w = set_key key v w.
Proof.
  unfold input_key.
  destruct ((action =? GLFW_RELEASE) && (key_state key w =? GLFW_RELEASE));
    [by left|].
  destruct ((action =? GLFW_RELEASE) && sticky w); [right; by eexists|].
  destruct (action =? GLFW_REPEAT); right; by eexists.
Qed.

Lemma sticky_deliver_to h w e : sticky (deliver_to h w e) = sticky w.
Proof.
  destruct e as [k key a|k]; cbn; case_decide; try done.
  by destruct (input_key_cases key a w) as [->|(v & ->)].
Qed.

Lemma close_deliver_to h w e :
  win_should_close w <> 0 -> win_should_close (deliver_to h w e) <> 0.
Proof.
  destruct e as [k key a|k]; cbn; case_decide; try done.
  by destruct (input_key_cases key a w) as [->|(v & ->)].
Qed.

Lemma close_event_sets h w :
  win_should_close (deliver_to h w (CloseEvent h)) <> 0.
Proof. cbn. by rewrite decide_True. Qed.

Lemma press_latches h w :
  reads_pressed GLFW_KEY_ESCAPE
    (deliver_to h w (KeyEvent h GLFW_KEY_ESCAPE GLFW_PRESS)) = true.
Proof.
  cbn. rewrite decide_True by done.
  unfold input_key, reads_pressed, key_state. cbn.
  by rewrite lookup_insert_eq.
Qed.

Lemma latched_kept h w e :
  sticky w = true -> well_formed e = true ->
  reads_pressed GLFW_KEY_ESCAPE w = true ->
  reads_pressed GLFW_KEY_ESCAPE (deliver_to h w e) = true.
Proof.
  intros Hs Hwf Hp. destruct e as [k key a|k]; cbn; case_decide; try done.
  destruct (decide (key = GLFW_KEY_ESCAPE)) as [->|Hkey].
  - unfold input_key. rewrite Hs. unfold reads_pressed in Hp.
    apply orb_prop in Hp as [Hp%Z.eqb_eq | Hp%Z.eqb_eq]; rewrite Hp;
      unfold key_action in Hwf;
      apply orb_prop in Hwf as [Hwf|Ha%Z.eqb_eq];
      [apply orb_prop in Hwf as [Ha%Z.eqb_eq|Ha%Z.eqb_eq]| |
       apply orb_prop in Hwf as [Ha%Z.eqb_eq|Ha%Z.eqb_eq]|]; subst a; cbn;
      unfold reads_pressed, key_state; cbn; by rewrite lookup_insert_eq.
  - destruct (input_key_cases key a w) as [->|(v & ->)]; [done|].
    unfold reads_pressed, key_state in *. cbn.
    by rewrite lookup_insert_ne.
Qed.

Lemma press_seen h evs : forall w,
  sticky w = true ->
  forallb well_formed evs = true ->
  In (KeyEvent h GLFW_KEY_ESCAPE GLFW_PRESS) evs ->
  reads_pressed GLFW_KEY_ESCAPE (fold_left (deliver_to h) evs w) = true.
Proof.
  assert (forall evs w, sticky w = true -> forallb well_formed evs = true ->
            reads_pressed GLFW_KEY_ESCAPE w = true ->
            reads_pressed GLFW_KEY_ESCAPE (fold_left (deliver_to h) evs w)
            = true) as Hkept.
  { clear evs. induction evs as [|e evs IH]; intros w Hs Hwf Hp; [done|].
    cbn in *. apply andb_prop in Hwf as [He Hwf].
    apply IH; [by rewrite sticky_deliver_to | done | by apply latched_kept]. }
  induction evs as [|e evs IH]; intros w Hs Hwf Hin; [done|].
  cbn in *. apply andb_prop in Hwf as [He Hwf]. destruct Hin as [->|Hin].
  - apply Hkept; [by rewrite sticky_deliver_to | done | apply press_latches].
  - apply IH; [by rewrite sticky_deliver_to | done | done].
Qed.

Lemma close_seen h evs : forall w,
  win_should_close w <> 0 \/ In (CloseEvent h) evs ->
  win_should_close (fold_left (deliver_to h) evs w) <> 0.
Proof.
  induction evs as [|e evs IH]; intros w [Hc|Hin]; cbn in *; try done.
  - apply IH. left. by apply close_deliver_to.
  - destruct Hin as [->|Hin].
    + apply IH. left. apply close_event_sets.
    + apply IH. by right.
Qed.

Lemma this_deliver_all evs s : this (fold_left deliver evs s) = this s.
Proof. by destruct (same_windows_deliver evs s). Qed.

(** The window of [Window] after a call of [ProcessInput] that polled. *)
Lemma window_after_poll env continueGame s :
  exit_requested s = false ->
  let r := ProcessInput env continueGame s in
  result r = continueGame /\
  this (final r) = this s /\
  window_at (Window (this s)) (final r) =
  (fun w => fold_left (deliver_to (Window (this s))) (polled_events env s) w)
    <$> window_at (Window (this s)) s.
Proof.
  intros Hno. cbv zeta.
  destruct (ProcessInput_by_state env continueGame s) as (Hres & _ & Hfin).
  rewrite Hno in Hres. rewrite (Hfin Hno). split; [done|]. split.
  - cbn. by rewrite this_deliver_all.
  - change (window_at ?h (tick ?x)) with (window_at h x).
    by rewrite window_at_deliver_all.
Qed.

(** X7: a press of Escape is not lost.  When a call of [ProcessInput]
    on a window with sticky keys on polls events among which Escape goes
    down in that window, the next call returns false, whatever else the
    same poll delivered after it, a release of Escape included. *)
Theorem Escape_press_seen_next_frame env continueGame continueGame' s :
  let r := ProcessInput env continueGame s in
  sticky_on s = true ->
  exit_requested s = false ->
  forallb well_formed (polled_events env s) = true ->
  In (KeyEvent (Window (this s)) GLFW_KEY_ESCAPE GLFW_PRESS)
     (polled_events env s) ->
  result r = continueGame /\
  result (ProcessInput env continueGame' (final r)) = false.
Proof.
  cbv zeta. intros Hst Hno Hwf Hin.
  destruct (window_after_poll env continueGame s Hno) as (Hres & Hthis & Hw).
  split; [done|].
  destruct (ProcessInput_by_state env continueGame'
              (final (ProcessInput env continueGame s))) as (-> & _).
  unfold exit_requested, escape_reads_pressed. rewrite Hthis, Hw.
  unfold sticky_on in Hst.
  destruct (window_at (Window (this s)) s) as [w|]; [|done]. cbn.
  by rewrite press_seen.
Qed.

(** X8: a click on the close button is seen one frame later.  When a
    call of [ProcessInput] polls events among which the window of
    [Window] is asked to close, the next call returns false. *)
Theorem close_event_seen_next_frame env continueGame continueGame' s :
  let r := ProcessInput env continueGame s in
  is_Some (window_at (Window (this s)) s) ->
  exit_requested s = false ->
  In (CloseEvent (Window (this s))) (polled_events env s) ->
  result r = continueGame /\
  result (ProcessInput env continueGame' (final r)) = false.
Proof.
  cbv zeta. intros [w Hlive] Hno Hin.
  destruct (window_after_poll env continueGame s Hno) as (Hres & Hthis & Hw).
  split; [done|].
  destruct (ProcessInput_by_state env continueGame'
              (final (ProcessInput env continueGame s))) as (-> & _).
  unfold exit_requested, close_flag_set. rewrite Hthis, Hw, Hlive. cbn.
  destruct (win_should_close _ =? 0) eqn:E.
  - apply Z.eqb_eq in E. exfalso. revert E. apply close_seen. by right.
  - by rewrite orb_true_r.
Qed.

(** Escape tapped during the first frame, on the window of the sample. *)
Lemma Escape_press_seen_next_frame_witness :
  let s := MoreSamples.started MoreSamples.tap in
  let r := ProcessInput MoreSamples.tap true s in
  result r = true /\
  result (ProcessInput MoreSamples.tap true (final r)) = false.
Proof.
  apply (Escape_press_seen_next_frame MoreSamples.tap true true
           (MoreSamples.started MoreSamples.tap)).
  - vm_compute. reflexivity.
  - vm_compute. reflexivity.
  - vm_compute. reflexivity.
  - vm_compute. by left.
Defined.

(** The close button clicked during the first frame. *)
Lemma close_event_seen_next_frame_witness :
  let s := MoreSamples.started MoreSamples.closer in
  let r := ProcessInput MoreSamples.closer true s in
  result r = true /\
  result (ProcessInput MoreSamples.closer true (final r)) = false.
Proof.
  apply (close_event_seen_next_frame MoreSamples.closer true true
           (MoreSamples.started MoreSamples.closer)).
  - vm_compute. by eexists.
  - vm_compute. reflexivity.
  - vm_compute. by left.
Defined.

(** X9: a tap of Escape is reported once.  When Escape was pressed and
    released before a call of [ProcessInput] and no close is requested,
    that call returns false after the one read of the key, and the call
    after it returns its flag again: reading the key has released it. *)
Theorem tapped_Escape_reported_once env continueGame continueGame' s w :
  window_at (Window (this s)) s = Some w ->
  key_state GLFW_KEY_ESCAPE w = GLFW_STICK ->
  win_should_close w = 0 ->
  let r := ProcessInput env continueGame s in
  result r = false /\
  calls r = [glfwGetKey_call (Window (this s)) GLFW_KEY_ESCAPE GLFW_PRESS] /\
  result (ProcessInput env continueGame' (final r)) = continueGame'.
Proof.
  intros Hw Hk Hc. cbv zeta.
  destruct (ProcessInput_by_state env continueGame'
              (final (ProcessInput env continueGame s))) as (-> & _).
  destruct s as [[p] [l|] fl ld ck]; [|discriminate].
  unfold ProcessInput, exit_requested, escape_reads_pressed, reads_pressed,
    close_flag_set, window_at, result, final, calls in *; unfold_calls;
    cbn in *.
  rewrite Hw, Hk. cbn. rewrite lookup_alter_eq, Hw. cbn.
  unfold key_state. cbn. rewrite lookup_insert_eq. cbn. by rewrite Hc.
Qed.

Lemma tapped_Escape_reported_once_witness :
  let s := final (ProcessInput MoreSamples.tap true
                    (MoreSamples.started MoreSamples.tap)) in
  let r := ProcessInput MoreSamples.tap true s in
  result r = false /\
  calls r = [glfwGetKey_call (Window (this s)) GLFW_KEY_ESCAPE GLFW_PRESS] /\
  result (ProcessInput MoreSamples.tap true (final r)) = true.
Proof.
  cbv zeta.
  destruct (window_at (Window (this (final (ProcessInput MoreSamples.tap true
              (MoreSamples.started MoreSamples.tap)))))
              (final (ProcessInput MoreSamples.tap true
                 (MoreSamples.started MoreSamples.tap)))) as [w|] eqn:E;
    [|vm_compute in E; discriminate].
  apply (tapped_Escape_reported_once MoreSamples.tap true true _ w E).
  - vm_compute in E. injection E as <-. vm_compute. reflexivity.
  - vm_compute in E. injection E as <-. vm_compute. reflexivity.
Defined.

(** ** Sequences of SwapBuffers and ProcessInput *)

(** A frame that the four library calls of the per-frame methods keep is
    kept by every sequence of these methods. *)
Lemma keeps_frames (R : relation State) `{!PreOrder R} env :
  (forall h, keeps R (glfwSwapBuffers h)) ->
  (forall h key, keeps R (glfwGetKey h key)) ->
  (forall h, keeps R (glfwWindowShouldClose h)) ->
  keeps R (glfwPollEvents env) ->
  forall ops, forallb per_frame ops = true -> keeps R (run_ops env ops).
Proof.
  intros Hswap Hkey Hclose Hpoll.
  assert (forall o, per_frame o = true -> keeps R (run_op env o)) as Hop.
  { intros [| |b|] Ho; try discriminate; cbn; unfold SwapBuffers, ProcessInput;
      repeat first
        [ apply keeps_bind; [apply _ | | intros ?]
        | apply keeps_get_Window; apply _
        | apply keeps_ret; apply _
        | apply Hswap | apply Hkey | apply Hclose | apply Hpoll
        | match goal with |- keeps _ (if ?c then _ else _) => destruct c end ]. }
  induction ops as [|o ops IH]; intros Hops; cbn [run_ops].
  - apply keeps_ret. apply _.
  - cbn in Hops. apply andb_prop in Hops as [Ho Hops].
    apply keeps_bind; [apply _ | by apply Hop | intros _; by apply IH].
Qed.

#[local] Instance close_kept_preorder : PreOrder close_kept.
Proof.
  split.
  - intros s. split; [done|]. intros h w Hw Hc. by exists w.
  - intros s1 s2 s3 [Ht1 H1] [Ht2 H2]. split; [congruence|].
    intros h w Hw Hc. destruct (H1 h w Hw Hc) as (w' & Hw' & Hc').
    by apply (H2 h w').
Qed.

Lemma close_kept_tick s : close_kept s (tick s).
Proof. split; [done|]. intros h w Hw Hc. by exists w. Qed.

Lemma close_kept_on_window f k s :
  (forall w, win_should_close w <> 0 -> win_should_close (f w) <> 0) ->
  close_kept s (on_window f k s).
Proof.
  intros Hf. split; [done|]. intros h w Hw Hc.
  rewrite window_at_on_window, Hw.
  destruct (decide (k = h)); cbn; eexists; split; eauto.
Qed.

Lemma close_kept_deliver evs : forall s, close_kept s (fold_left deliver evs s).
Proof.
  induction evs as [|e evs IH]; intros s; cbn; [reflexivity|].
  etransitivity; [|apply IH]. split.
  - by destruct (same_windows_deliver [e] s).
  - intros h w Hw Hc. rewrite window_at_deliver, Hw. cbn.
    eexists; split; [done|]. by apply close_deliver_to.
Qed.

Lemma close_kept_frames env ops :
  forallb per_frame ops = true -> keeps close_kept (run_ops env ops).
Proof.
  apply keeps_frames; [apply _ | | | |].
  - intros h. apply keeps_extern; [apply _ | apply close_kept_tick |].
    intros s. by apply close_kept_on_window.
  - intros h key. apply keeps_extern; [apply _ | apply close_kept_tick |].
    intros s. destruct (glfw s) as [l|]; [|reflexivity].
    destruct (lib_windows l !! h) as [w|]; [|reflexivity].
    destruct (key_state key w =? GLFW_STICK); [|reflexivity].
    by apply close_kept_on_window.
  - intros h. apply keeps_extern; [apply _ | apply close_kept_tick |].
    intros s. reflexivity.
  - apply keeps_extern; [apply _ | apply close_kept_tick |].
    intros s. apply close_kept_deliver.
Qed.

(** X10: a request to close stays.  Once the close flag of the window of
    [Window] is set, no sequence of [SwapBuffers] and [ProcessInput]
    clears it, and every call of [ProcessInput] from then on returns
    false, whatever flag is passed. *)
Theorem close_request_is_permanent env ops s :
  close_flag_set s = true ->
  forallb per_frame ops = true ->
  let s' := final (run_ops env ops s) in
  close_flag_set s' = true /\
  forall continueGame, result (ProcessInput env continueGame s') = false.
Proof.
  intros Hc Hops. cbv zeta.
  assert (close_flag_set (final (run_ops env ops s)) = true) as Hc'.
  { destruct (close_kept_frames env ops Hops s) as [Hthis Hkept].
    unfold close_flag_set in *. rewrite Hthis.
    destruct (window_at (Window (this s)) s) as [w|] eqn:Hw; [|done].
    destruct (Hkept _ w Hw) as (w' & -> & Hw').
    - intros E. by rewrite E in Hc.
    - by apply negb_true_iff, Z.eqb_neq. }
  split; [done|]. intros b.
  destruct (ProcessInput_by_state env b (final (run_ops env ops s)))
    as (-> & _).
  unfold exit_requested. by rewrite Hc', orb_true_r.
Qed.

(** Two more frames after the click has been polled. *)
Lemma close_request_is_permanent_witness :
  let s := final (ProcessInput MoreSamples.closer true
                    (MoreSamples.started MoreSamples.closer)) in
  result (ProcessInput MoreSamples.closer true
            (final (run_ops MoreSamples.closer Samples.frames s))) = false.
Proof.
  cbv zeta.
  destruct (close_request_is_permanent MoreSamples.closer Samples.frames
              (final (ProcessInput MoreSamples.closer true
                        (MoreSamples.started MoreSamples.closer))))
    as [_ H].
  - vm_compute. reflexivity.
  - vm_compute. reflexivity.
  - apply (H true).
Defined.

#[local] Instance still_down_preorder : PreOrder still_down.
Proof.
  split.
  - by intros s.
  - intros s1 s2 s3 [Ht1 H1] [Ht2 H2]. split; [congruence | auto].
Qed.

Lemma still_down_tick s : still_down s (tick s).
Proof. by split. Qed.

Lemma still_down_on_window f k s : still_down s (on_window f k s).
Proof. split; [done|]. intros H. unfold on_window. cbn. by rewrite H. Qed.

Lemma still_down_deliver evs : forall s, still_down s (fold_left deliver evs s).
Proof.
  induction evs as [|e evs IH]; intros s; cbn; [reflexivity|].
  etransitivity; [|apply IH]. destruct e; apply still_down_on_window.
Qed.

Lemma still_down_frames env ops :
  forallb per_frame ops = true -> keeps still_down (run_ops env ops).
Proof.
  apply keeps_frames; [apply _ | | | |].
  - intros h. apply keeps_extern; [apply _ | apply still_down_tick |].
    intros s. apply still_down_on_window.
  - intros h key. apply keeps_extern; [apply _ | apply still_down_tick |].
    intros s. destruct (glfw s) as [l|]; [|reflexivity].
    destruct (lib_windows l !! h) as [w|]; [|reflexivity].
    destruct (key_state key w =? GLFW_STICK); [|reflexivity].
    apply still_down_on_window.
  - intros h. apply keeps_extern; [apply _ | apply still_down_tick |].
    intros s. reflexivity.
  - apply keeps_extern; [apply _ | apply still_down_tick |].
    intros s. apply still_down_deliver.
Qed.

(** X11: the per-frame methods without the library.  While GLFW is not
    initialised, before [Initialize] or after [Destroy], no sequence of
    [SwapBuffers] and [ProcessInput] initialises it, and [ProcessInput]
    returns its flag: it never reports an exit. *)
Theorem per_frame_methods_without_library env ops s :
  glfw s = None ->
  forallb per_frame ops = true ->
  let s' := final (run_ops env ops s) in
  glfw s' = None /\
  Window (this s') = Window (this s) /\
  forall continueGame, result (ProcessInput env continueGame s') = continueGame.
Proof.
  intros Hnone Hops. cbv zeta.
  destruct (still_down_frames env ops Hops s) as [Hthis Hdown].
  specialize (Hdown Hnone). split; [done|]. split; [by rewrite Hthis|].
  intros b.
  destruct (ProcessInput_by_state env b (final (run_ops env ops s)))
    as (-> & _).
  unfold exit_requested, escape_reads_pressed, close_flag_set, window_at.
  by rewrite Hdown.
Qed.

(** Escape held down, but the library has been terminated. *)
Lemma per_frame_methods_without_library_witness :
  result (ProcessInput Samples.typist true
            (final (run_ops Samples.typist Samples.frames
                      (final (Destroy Samples.escape_held)))))
  = true.
Proof.
  destruct (per_frame_methods_without_library Samples.typist Samples.frames
              (final (Destroy Samples.escape_held))) as (_ & _ & H).
  - vm_compute. reflexivity.
  - vm_compute. reflexivity.
  - apply (H true).
Defined.

Lemma same_settings_refl w : same_settings w w.
Proof. by repeat split. Qed.

Lemma same_settings_trans w1 w2 w3 :
  same_settings w1 w2 -> same_settings w2 w3 -> same_settings w1 w3.
Proof. unfold same_settings. intuition congruence. Qed.

Lemma same_settings_input_key key action w :
  same_settings w (input_key key action w).
Proof.
  destruct (input_key_cases key action w) as [->|(v & ->)];
    by repeat split.
Qed.

#[local] Instance settings_kept_preorder : PreOrder settings_kept.
Proof.
  split.
  - intros s. split; [done|]. intros h w Hw. exists w.
    split; [done | apply same_settings_refl].
  - intros s1 s2 s3 [Ht1 H1] [Ht2 H2]. split; [congruence|].
    intros h w Hw. destruct (H1 h w Hw) as (w2 & Hw2 & Hs2).
    destruct (H2 h w2 Hw2) as (w3 & Hw3 & Hs3).
    exists w3. split; [done | by eapply same_settings_trans].
Qed.

Lemma settings_kept_tick s : settings_kept s (tick s).
Proof.
  split; [done|]. intros h w Hw. exists w.
  split; [done | apply same_settings_refl].
Qed.

Lemma settings_kept_on_window f k s :
  (forall w, same_settings w (f w)) -> settings_kept s (on_window f k s).
Proof.
  intros Hf. split; [done|]. intros h w Hw.
  rewrite window_at_on_window, Hw.
  destruct (decide (k = h)); cbn; eexists; split; eauto.
  apply same_settings_refl.
Qed.

Lemma settings_kept_deliver evs : forall s,
  settings_kept s (fold_left deliver evs s).
Proof.
  induction evs as [|e evs IH]; intros s; cbn; [reflexivity|].
  etransitivity; [|apply IH].
  destruct e; apply settings_kept_on_window; intros w;
    [apply same_settings_input_key | by repeat split].
Qed.

Lemma settings_kept_frames env ops :
  forallb per_frame ops = true -> keeps settings_kept (run_ops env ops).
Proof.
  apply keeps_frames; [apply _ | | | |].
  - intros h. apply keeps_extern; [apply _ | apply settings_kept_tick |].
    intros s. apply settings_kept_on_window. intros w. by repeat split.
  - intros h key. apply keeps_extern; [apply _ | apply settings_kept_tick |].
    intros s. destruct (glfw s) as [l|]; [|reflexivity].
    destruct (lib_windows l !! h) as [w|]; [|reflexivity].
    destruct (key_state key w =? GLFW_STICK); [|reflexivity].
    apply settings_kept_on_window. intros w'. by repeat split.
  - intros h. apply keeps_extern; [apply _ | apply settings_kept_tick |].
    intros s. reflexivity.
  - apply keeps_extern; [apply _ | apply settings_kept_tick |].
    intros s. apply settings_kept_deliver.
Qed.

(** X12: the per-frame methods change no setting.  Over any sequence of
    [SwapBuffers] and [ProcessInput], every live window stays live and
    keeps its size, title, monitor, context attributes and input modes;
    so the sticky keys [Initialize] turned on stay on. *)
Theorem per_frame_methods_keep_settings env ops s :
  forallb per_frame ops = true ->
  let s' := final (run_ops env ops s) in
  (forall h w, window_at h s = Some w ->
     exists w', window_at h s' = Some w' /\ same_settings w w') /\
  (sticky_on s = true -> sticky_on s' = true).
Proof.
  intros Hops. cbv zeta.
  destruct (settings_kept_frames env ops Hops s) as [Hthis Hkept].
  split; [done|]. unfold sticky_on. rewrite Hthis.
  destruct (window_at (Window (this s)) s) as [w|] eqn:Hw; [|done].
  destruct (Hkept _ w Hw) as (w' & -> & Hs).
  unfold sticky. destruct Hs as (_ & _ & _ & _ & _ & ->). done.
Qed.

Lemma per_frame_methods_keep_settings_witness :
  sticky_on (final (run_ops MoreSamples.tap Samples.frames
                      (MoreSamples.started MoreSamples.tap))) = true.
Proof.
  apply (per_frame_methods_keep_settings MoreSamples.tap Samples.frames
           (MoreSamples.started MoreSamples.tap)).
  - vm_compute. reflexivity.
  - vm_compute. reflexivity.
Defined.

(** ** Buffer swaps *)

Lemma swaps_of_op env o s :
  List.filter is_swap (calls (run_op env o s)) =
  if is_SwapBuffers o then [glfwSwapBuffers_call (Window (this s))] else [].
Proof.
  destruct o as [width height strTitle bFullScreen| |b|].
  - rewrite final_run_Initialize. unfold calls at 1. cbn [snd is_SwapBuffers].
    generalize (Initialize_run env width height strTitle bFullScreen s).
    generalize (Initialize env width height strTitle bFullScreen s).
    intros r Hrun. destruct Hrun; unfold calls; cbn [snd];
      unfold hint_calls, create_calls, setup_calls;
      by destruct bFullScreen.
  - reflexivity.
  - unfold run_op. rewrite calls_bind. unfold ret at 1, calls at 2.
    cbn [snd]. rewrite app_nil_r.
    by destruct (ProcessInput_run env b s).
  - reflexivity.
Qed.

(** X13: a frame is shown once per [SwapBuffers] and by nothing else.
    Over any sequence of method calls, [Initialize] and [Destroy]
    included, the number of [glfwSwapBuffers] calls made equals the
    number of [SwapBuffers] calls in the sequence; one call of
    [SwapBuffers] makes one, on the handle in [Window]. *)
Theorem swaps_counted env ops s :
  length (List.filter is_swap (calls (run_ops env ops s))) =
  length (List.filter is_SwapBuffers ops) /\
  List.filter is_swap (calls (SwapBuffers s)) =
  [glfwSwapBuffers_call (Window (this s))].
Proof.
  split; [|reflexivity].
  revert s. induction ops as [|o ops IH]; intros s; cbn [run_ops]; [done|].
  rewrite calls_bind, List.filter_app, length_app, IH, swaps_of_op.
  cbn [List.filter]. by destruct (is_SwapBuffers o).
Qed.

(** ** Destroy *)

(** X14: [Destroy] does not reset [Window].  After an [Initialize] that
    returned 0, any frames and then [Destroy], [Window] still holds the
    handle [Initialize] stored: not null, but no longer naming a window. *)
Theorem Destroy_leaves_dangling_handle
    env width height strTitle bFullScreen ops s :
  let r := Initialize env width height strTitle bFullScreen s in
  result r = 0 ->
  forallb per_frame ops = true ->
  let s' := final (Destroy (final (run_ops env ops (final r)))) in
  Window (this s') = Window (this (final r)) /\
  Window (this s') <> nullptr /\
  live (Window (this s')) s' = false.
Proof.
  cbv zeta. intros H0 Hops.
  assert (Window (this (final
            (Initialize env width height strTitle bFullScreen s)))
          <> nullptr) as Hnn.
  { revert H0. by_run env width height strTitle bFullScreen s;
      intros H; try discriminate. by rewrite Hw. }
  destruct (run_ops_per_frame env ops
              (final (Initialize env width height strTitle bFullScreen s))
              Hops) as [[Hthis _] _].
  pose proof (keeps_Destroy
                (final (run_ops env ops
                   (final (Initialize env width height strTitle
                             bFullScreen s))))) as Hd.
  unfold same_object in Hd. rewrite Hd, Hthis. by repeat split.
Qed.

Lemma Destroy_leaves_dangling_handle_witness :
  let s' := final (Destroy (final (run_ops Samples.good Samples.frames
                                     Samples.running))) in
  Window (this s') = Window (this Samples.running) /\
  Window (this s') <> nullptr /\
  live (Window (this s')) s' = false.
Proof.
  apply (Destroy_leaves_dangling_handle Samples.good 800 600
           "First OpenGL Program" false Samples.frames (Samples.start 0%N)).
  - vm_compute. reflexivity.
  - vm_compute. reflexivity.
Defined.
